(** * A shallow embedding of [sec_filings_downloader.py]

    The downloader resolves a ticker to a CIK, reads the company's filing
    index, selects filings, fetches each filing's primary document from the
    EDGAR archive, cleans it and writes it to disk.

    Python strings are modelled as [string] (ASCII characters), Python
    integers as [Z], a Python exception as the left side of a sum, and the
    network and the file system as functions given as parameters (the
    record [Net]).  HTML parsing is done by BeautifulSoup, an external
    library: a fetched page is represented by what the code reads from its
    parse (the [href] of every [a] tag, and the text [get_text] returns once
    the markup has been stripped). *)

From Stdlib Require Import String Ascii ZArith List Bool Lia.
Import ListNotations.
Open Scope string_scope.
Open Scope Z_scope.

(* ------------------------------------------------------------------ *)
(** ** Python string operations *)

Module Py.

(** [needle in hay] *)
Fixpoint contains (needle hay : string) : bool :=
  if String.prefix needle hay then true
  else match hay with
       | EmptyString => false
       | String _ rest => contains needle rest
       end.

(** [s.startswith(p)] *)
Definition startswith (s p : string) : bool := String.prefix p s.

Definition ascii_lower (c : ascii) : ascii :=
  let n := nat_of_ascii c in
  if andb (Nat.leb 65 n) (Nat.leb n 90) then ascii_of_nat (n + 32) else c.

Definition ascii_upper (c : ascii) : ascii :=
  let n := nat_of_ascii c in
  if andb (Nat.leb 97 n) (Nat.leb n 122) then ascii_of_nat (n - 32) else c.

Fixpoint map_chars (f : ascii -> ascii) (s : string) : string :=
  match s with
  | EmptyString => EmptyString
  | String c r => String (f c) (map_chars f r)
  end.

(** [s.lower()] and [s.upper()] *)
Definition lower (s : string) : string := map_chars ascii_lower s.
Definition upper (s : string) : string := map_chars ascii_upper s.

(** [len(s)] *)
Definition len (s : string) : Z := Z.of_nat (String.length s).

(** [s.split(sep)] for a one-character separator: always at least one
    piece, empty pieces kept. *)
Fixpoint split (sep : ascii) (s : string) : list string :=
  match s with
  | EmptyString => [EmptyString]
  | String c r =>
      let pieces := split sep r in
      if Ascii.eqb c sep then EmptyString :: pieces
      else match pieces with
           | p :: ps => String c p :: ps
           | [] => [String c EmptyString]
           end
  end.

(** [xs[-1]] on the (never empty) result of [split]. *)
Definition last_piece (xs : list string) : string := List.last xs EmptyString.

(** [sep.join(xs)] *)
Fixpoint join (sep : string) (xs : list string) : string :=
  match xs with
  | [] => EmptyString
  | [x] => x
  | x :: rest => x ++ sep ++ join sep rest
  end.

(** Characters [str.isspace] accepts, restricted to ASCII. *)
Definition is_space (c : ascii) : bool :=
  let n := nat_of_ascii c in
  orb (Nat.eqb n 32) (orb (andb (Nat.leb 9 n) (Nat.leb n 13))
                          (andb (Nat.leb 28 n) (Nat.leb n 31))).

(** [s.rstrip()] *)
Fixpoint rstrip (s : string) : string :=
  match s with
  | EmptyString => EmptyString
  | String c r =>
      let r' := rstrip r in
      if andb (is_space c) (String.eqb r' EmptyString) then EmptyString
      else String c r'
  end.

(** [s.lstrip()] *)
Fixpoint lstrip (s : string) : string :=
  match s with
  | EmptyString => EmptyString
  | String c r => if is_space c then lstrip r else s
  end.

(** [s.strip()] *)
Definition strip (s : string) : string := lstrip (rstrip s).

(** [s.replace(old, "")] for a one-character [old]. *)
Fixpoint remove_char (old : ascii) (s : string) : string :=
  match s with
  | EmptyString => EmptyString
  | String c r => if Ascii.eqb c old then remove_char old r
                  else String c (remove_char old r)
  end.

(** [s.replace('\n\n\n', '\n\n')]: non-overlapping occurrences, left to
    right. *)
Definition nl : ascii := ascii_of_nat 10.

Fixpoint replace_nnn (s : string) : string :=
  match s with
  | String a (String b (String c r) as t) =>
      if andb (Ascii.eqb a nl) (andb (Ascii.eqb b nl) (Ascii.eqb c nl))
      then String nl (String nl (replace_nnn r))
      else String a (replace_nnn t)
  | String a r => String a (replace_nnn r)
  | EmptyString => EmptyString
  end.

Definition is_digit (c : ascii) : bool :=
  andb (Nat.leb 48 (nat_of_ascii c)) (Nat.leb (nat_of_ascii c) 57).

Definition digit_val (c : ascii) : Z := Z.of_nat (nat_of_ascii c) - 48.

(** Digits with single underscores between them, as [int] accepts. *)
Fixpoint digits_us (s : string) (acc : Z) (prev_us : bool) : option Z :=
  match s with
  | EmptyString => if prev_us then None else Some acc
  | String c r =>
      if is_digit c then digits_us r (acc * 10 + digit_val c) false
      else if andb (Ascii.eqb c "_"%char) (negb prev_us)
           then digits_us r acc true
           else None
  end.

Definition unsigned_int (s : string) : option Z :=
  match s with
  | String c r => if is_digit c then digits_us r (digit_val c) false else None
  | EmptyString => None
  end.

(** [int(s)] on a string: [None] where Python raises [ValueError]. *)
Definition int_of_string (s : string) : option Z :=
  match strip s with
  | String "-"%char r => option_map Z.opp (unsigned_int r)
  | String "+"%char r => unsigned_int r
  | t => unsigned_int t
  end.

Definition digit_char (d : Z) : ascii := ascii_of_nat (Z.to_nat (d + 48)).

Fixpoint digits_rev (fuel : nat) (n : Z) (acc : string) : string :=
  match fuel with
  | O => acc
  | S f =>
      let acc' := String (digit_char (n mod 10)) acc in
      if n / 10 =? 0 then acc' else digits_rev f (n / 10) acc'
  end.

(** [str(n)] on an integer. *)
Definition str_of_int (n : Z) : string :=
  let m := Z.abs n in
  let ds := digits_rev (S (Z.to_nat (Z.log2 m))) m EmptyString in
  if n <? 0 then "-" ++ ds else ds.

(** [s.zfill(w)] on a string without sign. *)
Definition zfill (w : nat) (s : string) : string :=
  (fix pad k := match k with O => s | S k' => String "0"%char (pad k') end)
    (w - String.length s)%nat.

(** [s.lstrip('0')] *)
Fixpoint lstrip_zeros (s : string) : string :=
  match s with
  | String "0"%char r => lstrip_zeros r
  | _ => s
  end.

(** [s[i:i+n]] for non-negative [i] and [n]. *)
Definition slice (i n : nat) (s : string) : string := String.substring i n s.

End Py.

(* ------------------------------------------------------------------ *)
(** ** Primary document selection (lines 124-149 of
    [_fetch_filing_from_edgar]) *)

Module Select.

(** One pass of the [for link in soup.find_all('a')] loop. The state is
    [(main_doc, all_htm_files)]; [all_htm_files] is kept reversed. *)
Definition step (acc : option string * list (string * string)) (href : string)
  : option string * list (string * string) :=
  let '(main_doc, all_htm) := acc in
  if andb (negb (String.eqb href EmptyString))
       (andb (Py.contains "/Archives/edgar" href)
             (Py.contains ".htm" (Py.lower href))) then
    let filename := Py.lower (Py.last_piece (Py.split "/"%char href)) in
    if andb (negb (Py.contains "index" filename))
            (negb (Py.contains "/search" href)) then
      let all_htm' := (filename, href) :: all_htm in
      if andb (negb (Py.contains "exhibit" filename))
              (negb (andb (Py.startswith filename "r")
                          (Py.len filename <? 10))) then
        match main_doc with
        | None => (Some href, all_htm')
        | Some _ => (main_doc, all_htm')
        end
      else (main_doc, all_htm')
    else (main_doc, all_htm)
  else (main_doc, all_htm).

(** The fallback after the loop: the first file named [r1.htm], else the
    first candidate. *)
Definition fallback (all_htm : list (string * string)) : option string :=
  match find (fun p => String.eqb (fst p) "r1.htm") all_htm with
  | Some (_, fpath) => Some fpath
  | None => match all_htm with
            | (_, fpath) :: _ => Some fpath
            | [] => None
            end
  end.

(** The href of the selected main document; [None] when the code returns
    [None] at line 149. *)
Definition main_doc (hrefs : list string) : option string :=
  let '(md, all_rev) := fold_left step hrefs (None, []) in
  match md with
  | Some h => Some h
  | None => fallback (rev all_rev)
  end.

End Select.

(** The selection rule as the spec states it, with the test on the HTML
    extension as a parameter: [on_filename = true] tests the lowercased
    filename (the wording of the claim), [false] the lowercased href. *)
Module SelectSpec.

Definition filename (href : string) : string :=
  Py.lower (Py.last_piece (Py.split "/"%char href)).

Definition candidate (on_filename : bool) (href : string) : bool :=
  andb (Py.contains "/Archives/edgar" href)
  (andb (Py.contains ".htm" (if on_filename then filename href else Py.lower href))
  (andb (negb (Py.contains "index" (filename href)))
        (negb (Py.contains "/search" href)))).

Definition preferred (href : string) : bool :=
  andb (negb (Py.contains "exhibit" (filename href)))
       (negb (andb (Py.startswith (filename href) "r")
                   (Py.len (filename href) <? 10))).

Definition select (on_filename : bool) (hrefs : list string) : option string :=
  let cands := filter (candidate on_filename) hrefs in
  match find preferred cands with
  | Some h => Some h
  | None =>
      match find (fun h => String.eqb (filename h) "r1.htm") cands with
      | Some h => Some h
      | None => hd_error cands
      end
  end.

End SelectSpec.

(* ------------------------------------------------------------------ *)
(** ** Text cleanup (lines 171-205 of [_fetch_filing_from_edgar]) *)

Module Clean.

Definition marker : string := "UNITED STATES".

Definition xbrl_prefixes : list string :=
  ["aapl:"; "us-gaap:"; "xbrli:"; "iso4217:"; "usfr:"; "exch:"; "dei:"].

(** The [for line in text.split('\n')] loop; [found_start] is the loop's
    flag. *)
Fixpoint clean_loop (found_start : bool) (raw_lines : list string)
  : list string :=
  match raw_lines with
  | [] => []
  | raw :: rest =>
      let line := Py.rstrip raw in
      if orb (String.eqb line EmptyString) (Py.len (Py.strip line) =? 0)
      then clean_loop found_start rest
      else if andb (negb found_start) (negb (Py.contains marker line))
      then clean_loop found_start rest
      else if andb (Py.contains "http" line)
                   (orb (Py.contains "fasb.org" line)
                        (Py.contains "sec.gov/Archives/edgar/xmlbrl" line))
      then clean_loop true rest
      else if andb (Py.len (Py.strip line) <? 100)
                   (andb (Py.contains ":" line) (negb (Py.contains " " line)))
              && existsb (Py.startswith line) xbrl_prefixes
      then clean_loop true rest
      else line :: clean_loop true rest
  end.

(** [while '\n\n\n' in cleaned: cleaned = cleaned.replace(...)]; every pass
    that finds an occurrence shortens the string, so [length s] passes are
    enough. *)
Fixpoint collapse_fuel (fuel : nat) (s : string) : string :=
  match fuel with
  | O => s
  | S f =>
      if Py.contains (String Py.nl (String Py.nl (String Py.nl EmptyString))) s
      then collapse_fuel f (Py.replace_nnn s)
      else s
  end.

Definition collapse (s : string) : string := collapse_fuel (String.length s) s.

(** [cleaned] after the collapse loop. *)
Definition cleaned_of (text : string) : string :=
  collapse (Py.join (String Py.nl EmptyString)
                    (clean_loop false (Py.split Py.nl text))).

(** Lines 202-205. *)
Definition extract_text (text : string) : option string :=
  let cleaned := cleaned_of text in
  if Py.len cleaned >? 5000 then Some cleaned else None.

End Clean.

(* ------------------------------------------------------------------ *)
(** ** The downloader's state, its world and its monad *)

(** A [Path] is kept as the list of the parts it is joined from. *)
Definition path := list string.

Definition mk_path (s : string) : path := [s].

Inductive exn := ValueError | AttributeError | TypeError.

(** Observable effects: requests issued, sleeps, files written. *)
Inductive event :=
| Get (url : string)
| Sleep
| WriteFile (p : path) (contents : string).

(** A response of [requests.get] on an archive page. *)
Record response := {
  status_code : Z;
  links : list string;
  page_text : string
}.

(** [data['filings']['recent']] when it is a dict holding ['form']. *)
Record recent := {
  forms : list string;
  accession_numbers : list string;
  filing_dates : list string;
  report_dates : list string
}.

(** The world outside the program. [None] from a request stands for
    [requests.get] or [raise_for_status] raising. *)
Record World := {
  search_page : string -> option string;
  submissions : string -> option (option recent);
  archive : string -> option response;
  write_ok : path -> bool;
  utc_year : Z
}.

Record filing := {
  accession_number : string;
  filing_date : string;
  report_date : string;
  form_type : string
}.

Record dstate := {
  output_folder_10k : option path;
  output_folder_10q : option path;
  cik_lookup : list (string * string);
  trace : list event
}.

Module PyM.

Definition PY (A : Type) : Type := dstate -> (exn + A) * dstate.

Definition ret {A} (a : A) : PY A := fun s => (inr a, s).

Definition bind {A B} (m : PY A) (k : A -> PY B) : PY B :=
  fun s => match m s with
           | (inl e, s') => (inl e, s')
           | (inr a, s') => k a s'
           end.

Definition raise {A} (e : exn) : PY A := fun s => (inl e, s).

Definition gets {A} (f : dstate -> A) : PY A := fun s => (inr (f s), s).

Definition emit (ev : event) : PY unit :=
  fun s => (inr tt, {| output_folder_10k := output_folder_10k s;
                       output_folder_10q := output_folder_10q s;
                       cik_lookup := cik_lookup s;
                       trace := trace s ++ [ev] |}).

Definition set_lookup (l : list (string * string)) : PY unit :=
  fun s => (inr tt, {| output_folder_10k := output_folder_10k s;
                       output_folder_10q := output_folder_10q s;
                       cik_lookup := l;
                       trace := trace s |}).

Notation "x <- m ;; k" := (bind m (fun x => k))
  (at level 61, m at next level, right associativity).
Notation "m ;; k" := (bind m (fun _ => k))
  (at level 61, right associativity).

End PyM.
Import PyM.

(** A Python dict with string keys, in insertion order. *)
Fixpoint dict_get {V} (k : string) (d : list (string * V)) : option V :=
  match d with
  | [] => None
  | (k', v) :: d' => if String.eqb k k' then Some v else dict_get k d'
  end.

Fixpoint dict_set {V} (k : string) (v : V) (d : list (string * V))
  : list (string * V) :=
  match d with
  | [] => [(k, v)]
  | (k', v') :: d' => if String.eqb k k' then (k, v) :: d'
                      else (k', v') :: dict_set k v d'
  end.

(* ------------------------------------------------------------------ *)
(** ** [SECFilingDownloader] *)

Module Downloader.

Section WithWorld.
Variable w : World.

(** [__init__], lines 24-32: the two output roots, or [ValueError]. *)
Definition path_if_truthy (o : option string) : option path :=
  match o with
  | Some s => if String.eqb s EmptyString then None else Some (mk_path s)
  | None => None
  end.

Definition init_folders (output_folder_10k output_folder_10q output_folder
    : option string) : exn + (option path * option path) :=
  match output_folder_10k, output_folder_10q, output_folder with
  | None, None, None => inl ValueError
  | None, None, Some f => inr (Some (mk_path f), Some (mk_path f))
  | _, _, _ => inr (path_if_truthy output_folder_10k,
                    path_if_truthy output_folder_10q)
  end.

(** [re.search(r'CIK=(\d+)', text).group(1)] *)
Fixpoint take_digits (s : string) : string :=
  match s with
  | String c r => if Py.is_digit c then String c (take_digits r) else EmptyString
  | EmptyString => EmptyString
  end.

Fixpoint search_cik (s : string) : option string :=
  match s with
  | EmptyString => None
  | String _ rest =>
      if Py.startswith s "CIK=" then
        match take_digits (String.substring 4 (String.length s) s) with
        | EmptyString => search_cik rest
        | ds => Some ds
        end
      else search_cik rest
  end.

(** [_get_cik], lines 56-75. *)
Definition get_cik (ticker : string) : PY (option string) :=
  let ticker_upper := Py.upper ticker in
  lookup <- gets cik_lookup ;;
  match dict_get ticker_upper lookup with
  | Some cik => ret (Some cik)
  | None =>
      let search_url :=
        "https://www.sec.gov/cgi-bin/browse-edgar?action=getcompany&company="
        ++ ticker ++
        "&type=&dateb=&owner=exclude&count=100&search_text=&CIK=&myHID=" in
      emit (Get search_url) ;;
      match search_page w search_url with
      | None => ret None
      | Some body =>
          match search_cik body with
          | Some ds =>
              match Py.int_of_string ds with
              | Some n =>
                  let cik := Py.zfill 10 (Py.str_of_int n) in
                  set_lookup (dict_set ticker_upper cik lookup) ;;
                  ret (Some cik)
              | None => ret None
              end
          | None => ret None
          end
      end
  end.

(** The [for i, form in enumerate(forms)] loop of
    [_get_filings_metadata]. *)
Fixpoint collect (filing_type : string) (r : recent) (i : nat)
    (fs : list string) : list filing :=
  match fs with
  | [] => []
  | form :: rest =>
      if String.eqb form filing_type then
        match nth_error (accession_numbers r) i, nth_error (filing_dates r) i,
              nth_error (report_dates r) i with
        | Some a, Some fd, Some rd =>
            {| accession_number := a; filing_date := fd; report_date := rd;
               form_type := form |} :: collect filing_type r (S i) rest
        | _, _, _ => collect filing_type r (S i) rest
        end
      else collect filing_type r (S i) rest
  end.

(** [_get_filings_metadata], lines 77-107. *)
Definition get_filings_metadata (cik filing_type : string) : PY (list filing) :=
  let url := "https://data.sec.gov/submissions/CIK" ++ cik ++ ".json" in
  emit (Get url) ;;
  match submissions w url with
  | None => ret []
  | Some None => ret []
  | Some (Some r) => ret (collect filing_type r 0 (forms r))
  end.

(** [_fetch_filing_from_edgar], lines 109-209. *)
Definition dir_url (cik accession : string) : string :=
  let cik_num := match Py.lstrip_zeros cik with
                 | EmptyString => "0"
                 | s => s
                 end in
  "https://www.sec.gov/Archives/edgar/data/" ++ cik_num ++ "/"
  ++ Py.remove_char "-"%char accession ++ "/".

Definition doc_url (main_doc : string) : string :=
  if Py.startswith main_doc "/" then "https://www.sec.gov" ++ main_doc
  else main_doc.

Definition fetch_filing (cik accession : string) : PY (option string) :=
  emit Sleep ;;
  let url := dir_url cik accession in
  emit (Get url) ;;
  match archive w url with
  | None => ret None
  | Some resp =>
      if negb (status_code resp =? 200) then ret None else
      match Select.main_doc (links resp) with
      | None => ret None
      | Some main_doc =>
          emit (Get (doc_url main_doc)) ;;
          match archive w (doc_url main_doc) with
          | None => ret None
          | Some doc_resp =>
              if negb (status_code doc_resp =? 200) then ret None
              else ret (Clean.extract_text (page_text doc_resp))
          end
      end
  end.

(** [datetime] is the class [datetime.datetime] (line 5); its attributes. *)
Definition datetime_class_attrs : list string :=
  ["astimezone"; "combine"; "ctime"; "date"; "day"; "dst"; "fold";
   "fromisocalendar"; "fromisoformat"; "fromordinal"; "fromtimestamp";
   "hour"; "isocalendar"; "isoformat"; "isoweekday"; "max"; "microsecond";
   "min"; "minute"; "month"; "now"; "replace"; "resolution"; "second";
   "strftime"; "strptime"; "time"; "timestamp"; "timetuple"; "timetz";
   "today"; "toordinal"; "tzinfo"; "tzname"; "utcfromtimestamp"; "utcnow";
   "utcoffset"; "utctimetuple"; "weekday"; "year"].

(** Line 241: [datetime.now(datetime.timezone.utc).year]. *)
Definition current_year : exn + Z :=
  if existsb (String.eqb "timezone") datetime_class_attrs
  then inr (utc_year w)
  else inl AttributeError.

Definition LAST_N_YEARS : Z := 10.

Definition years_to_include (year : option Z) (cy : Z) : list Z :=
  match year with
  | Some y => [y]
  | None => map (fun k => cy - (LAST_N_YEARS - 1) + Z.of_nat k)
                (seq 0 (Z.to_nat LAST_N_YEARS))
  end.

(** Lines 269-273: the quarter used by the filter; [None] for [continue]. *)
Definition filter_quarter (report_date : string) : option Z :=
  match Py.int_of_string (Py.slice 5 2 report_date) with
  | None => None
  | Some report_month => Some ((report_month - 1) / 3 + 1)
  end.

(** Lines 298-299: the quarter used in the filename; an unparsable month
    raises. *)
Definition filename_quarter (report_date : string) : exn + Z :=
  match Py.int_of_string (Py.slice 5 2 report_date) with
  | None => inl ValueError
  | Some report_month => inr ((report_month - 1) / 3 + 1)
  end.

(** The [for filing in filings] loop, lines 254-275. *)
Fixpoint select_loop (filing_type : string) (quarter : option Z)
    (years : list Z) (filings : list filing) : list filing :=
  match filings with
  | [] => []
  | f :: rest =>
      let rest' := select_loop filing_type quarter years rest in
      match Py.int_of_string (Py.slice 0 4 (filing_date f)) with
      | None => rest'
      | Some filing_year =>
          if negb (existsb (Z.eqb filing_year) years) then rest'
          else if String.eqb filing_type "10-K" then f :: rest'
          else match quarter with
               | None => f :: rest'
               | Some q =>
                   match filter_quarter (report_date f) with
                   | None => rest'
                   | Some filing_quarter =>
                       if filing_quarter =? q then f :: rest' else rest'
                   end
               end
      end
  end.

(** Lines 240-275. *)
Definition select_filings (filing_type : string) (year quarter : option Z)
    (download_all : bool) (filings : list filing) : exn + list filing :=
  match current_year with
  | inl e => inl e
  | inr cy =>
      if download_all then inr filings
      else inr (select_loop filing_type quarter (years_to_include year cy) filings)
  end.

(** Lines 293-301. *)
Definition filename_for (ticker filing_type : string) (f : filing)
  : exn + string :=
  if String.eqb filing_type "10-K" then
    inr ("10K-" ++ Py.upper ticker ++ "-" ++ Py.slice 0 4 (filing_date f)
         ++ ".txt")
  else
    match filename_quarter (report_date f) with
    | inl e => inl e
    | inr quarter_num =>
        inr ("10Q-" ++ Py.upper ticker ++ "-Q" ++ Py.str_of_int quarter_num
             ++ Py.slice 0 4 (filing_date f) ++ ".txt")
    end.

(** Lines 305-309: [None / ...] raises [TypeError], caught at line 313. *)
Definition output_path (output_folder : option path) (ticker filename : string)
  : option path :=
  match output_folder with
  | None => None
  | Some root => Some (root ++ [Py.upper ticker; "original"; filename])%list
  end.

(** Lines 304-315. *)
Definition save (output_folder : option path) (ticker filename text : string)
  : PY bool :=
  match output_path output_folder ticker filename with
  | None => ret false
  | Some p => if write_ok w p then emit (WriteFile p text) ;; ret true
              else ret false
  end.

(** The [for matching_filing in matching_filings] loop, lines 281-317. *)
Fixpoint process (ticker filing_type cik : string) (fs : list filing)
    (all_successful : bool) : PY bool :=
  match fs with
  | [] => ret all_successful
  | f :: rest =>
      filing_text <- fetch_filing cik (accession_number f) ;;
      match filing_text with
      | None => process ticker filing_type cik rest false
      | Some text =>
          if String.eqb text EmptyString
          then process ticker filing_type cik rest false
          else
            output_folder <- gets (if String.eqb filing_type "10-K"
                                   then output_folder_10k
                                   else output_folder_10q) ;;
            match filename_for ticker filing_type f with
            | inl e => raise e
            | inr filename =>
                ok <- save output_folder ticker filename text ;;
                process ticker filing_type cik rest (andb all_successful ok)
            end
      end
  end.

(** [download_filing], lines 211-317. *)
Definition download_filing (ticker filing_type : string)
    (year quarter : option Z) (download_all : bool) : PY bool :=
  if negb (orb (String.eqb filing_type "10-K") (String.eqb filing_type "10-Q"))
  then ret false
  else if andb (String.eqb filing_type "10-Q")
               (match quarter with
                | Some q => negb (existsb (Z.eqb q) [1; 2; 3; 4])
                | None => false
                end)
  then ret false
  else
    cik <- get_cik ticker ;;
    match cik with
    | None => ret false
    | Some c =>
      if String.eqb c EmptyString then ret false else
      filings <- get_filings_metadata c filing_type ;;
      match filings with
      | [] => ret false
      | _ =>
        match select_filings filing_type year quarter download_all filings with
        | inl e => raise e
        | inr [] => ret false
        | inr matching_filings => process ticker filing_type c matching_filings true
        end
      end
    end.

(** [download_batch], lines 319-341; [results] is the dict built so far. *)
Fixpoint batch_years (ticker filing_type : string) (years : list Z)
    (results : list (string * bool)) : PY (list (string * bool)) :=
  match years with
  | [] => ret results
  | year :: rest =>
      let key := ticker ++ "-" ++ filing_type ++ "-" ++ Py.str_of_int year in
      r <- download_filing ticker filing_type (Some year) None false ;;
      batch_years ticker filing_type rest (dict_set key r results)
  end.

Fixpoint batch_types (ticker : string) (filing_types : list string)
    (years : option (list Z)) (download_all : bool)
    (results : list (string * bool)) : PY (list (string * bool)) :=
  match filing_types with
  | [] => ret results
  | filing_type :: rest =>
      results' <-
        (if download_all then
           r <- download_filing ticker filing_type None None true ;;
           ret (dict_set (ticker ++ "-" ++ filing_type ++ "-all") r results)
         else match years with
              | Some ((_ :: _) as ys) => batch_years ticker filing_type ys results
              | _ =>
                  r <- download_filing ticker filing_type None None false ;;
                  ret (dict_set (ticker ++ "-" ++ filing_type) r results)
              end) ;;
      batch_types ticker rest years download_all results'
  end.

Fixpoint batch_tickers (tickers filing_types : list string)
    (years : option (list Z)) (download_all : bool)
    (results : list (string * bool)) : PY (list (string * bool)) :=
  match tickers with
  | [] => ret results
  | ticker :: rest =>
      results' <- batch_types ticker filing_types years download_all results ;;
      batch_tickers rest filing_types years download_all results'
  end.

Definition download_batch (tickers filing_types : list string)
    (years : option (list Z)) (download_all : bool)
  : PY (list (string * bool)) :=
  batch_tickers tickers filing_types years download_all [].

End WithWorld.
End Downloader.

(** The filing selector as section 4.3 of the spec words it, for a given
    set of years. *)
Module SelectorSpec.

Definition keep (filing_type : string) (quarter : option Z) (years : list Z)
    (f : filing) : bool :=
  match Py.int_of_string (Py.slice 0 4 (filing_date f)) with
  | None => false
  | Some y =>
      existsb (Z.eqb y) years &&
      (String.eqb filing_type "10-K" ||
       match quarter with
       | None => true
       | Some q =>
           match Py.int_of_string (Py.slice 5 2 (report_date f)) with
           | Some m => (m - 1) / 3 + 1 =? q
           | None => false
           end
       end)
  end.

End SelectorSpec.

(** The constructor's lookup table and the module-level entry point. *)
Module Construct.


(** One value of the bulk table: [entry['ticker']] and [entry['cik_str']],
    [None] where the key is missing (a [KeyError]). *)
Record ticker_entry := {
  entry_ticker : option string;
  entry_cik : option Z
}.

(** The [for entry in data.values()] loop of [_load_cik_lookup]; [None]
    when an entry raises. *)
Fixpoint load_entries (entries : list ticker_entry)
    (table : list (string * string)) : option (list (string * string)) :=
  match entries with
  | [] => Some table
  | e :: rest =>
      match entry_ticker e, entry_cik e with
      | Some t, Some c =>
          load_entries rest
            (dict_set (Py.upper t) (Py.zfill 10 (Py.str_of_int c)) table)
      | _, _ => None
      end
  end.

(** [_load_cik_lookup], lines 41-54: [bulk] is the parsed response, [None]
    when the request or the JSON decoding raises; any exception leaves the
    table empty (line 54). *)
Definition load_cik_lookup (bulk : option (list ticker_entry))
  : list (string * string) :=
  match bulk with
  | None => []
  | Some entries =>
      match load_entries entries [] with
      | Some table => table
      | None => []
      end
  end.



End Construct.

(** Checkers used to state properties of the cleaned text. *)
Module TextFacts.

(** [s] holds no newline character. *)
Fixpoint no_nl (s : string) : bool :=
  match s with
  | EmptyString => true
  | String c r => negb (Ascii.eqb c Py.nl) && no_nl r
  end.

(** [s] holds no two consecutive newlines ([prev_nl]: the character before
    [s] was one). *)
Fixpoint no_nn (prev_nl : bool) (s : string) : bool :=
  match s with
  | EmptyString => true
  | String c r =>
      if Ascii.eqb c Py.nl then negb prev_nl && no_nn true r
      else no_nn false r
  end.

End TextFacts.

(** The URL [_get_cik] requests on a cache miss (line 63). *)
Definition search_url (ticker : string) : string :=
  "https://www.sec.gov/cgi-bin/browse-edgar?action=getcompany&company="
  ++ ticker ++
  "&type=&dateb=&owner=exclude&count=100&search_text=&CIK=&myHID=".


(** The keys [download_batch] writes for one ticker and filing type. *)
Module BatchKeys.

Definition unit_keys (ticker filing_type : string) (years : option (list Z))
    (download_all : bool) : list string :=
  if download_all then [ticker ++ "-" ++ filing_type ++ "-all"]
  else match years with
       | Some ((_ :: _) as ys) =>
           map (fun y => ticker ++ "-" ++ filing_type ++ "-" ++ Py.str_of_int y) ys
       | _ => [ticker ++ "-" ++ filing_type]
       end.

End BatchKeys.

(** Concrete inputs. *)
Module Scenario.

Definition aapl_recent : recent := {|
  forms := ["10-K"];
  accession_numbers := ["0000320193-22-000108"];
  filing_dates := ["2022-10-28"];
  report_dates := ["2022-09-24"] |}.

Definition listing : response := {|
  status_code := 200;
  links := ["/Archives/edgar/data/320193/000032019322000108/aapl-20220924.htm"];
  page_text := "" |}.

Definition placeholder : response := {|
  status_code := 200;
  links := [];
  page_text := "Loading" ++ String Py.nl "UNITED STATES" |}.

(** A world where every filing index lists one 10-K, every archive page is
    [listing] and every document is [placeholder]. *)
Definition world : World := {|
  search_page := fun _ => None;
  submissions := fun _ => Some (Some aapl_recent);
  archive := fun url =>
    if Py.startswith url "https://www.sec.gov/Archives/edgar/data/320193/000032019322000108/aapl"
    then Some placeholder else Some listing;
  write_ok := fun _ => true;
  utc_year := 2026 |}.

Definition start : dstate := {|
  output_folder_10k := Some (mk_path "out");
  output_folder_10q := Some (mk_path "out");
  cik_lookup := [("AAPL", "0000320193"); ("MSFT", "0000789019")];
  trace := [] |}.

Definition text_with_preamble : string :=
  "Menu" ++ String Py.nl ("UNITED STATES" ++ String Py.nl "Form 10-K").

Definition q2_filing : filing := {|
  accession_number := "0001";
  filing_date := "2022-08-01";
  report_date := "2022-06-30";
  form_type := "10-Q" |}.

End Scenario.

(* ================================================================== *)
(** Helpers for stating properties. *)

(** Both fields of a bulk-table entry are present. *)
Definition entry_ok (e : Construct.ticker_entry) : Prop :=
  Construct.entry_ticker e <> None /\ Construct.entry_cik e <> None.

(** [st] with its trace replaced. *)
Definition with_trace (st : dstate) (tr : list event) : dstate :=
  {| output_folder_10k := output_folder_10k st;
     output_folder_10q := output_folder_10q st;
     cik_lookup := cik_lookup st; trace := tr |}.

(** Every value of a result dict is [False]. *)
Definition all_false (res : list (string * bool)) : Prop :=
  forall k v, dict_get k res = Some v -> v = false.


(** * Properties *)

(** ** Primary document selection *)

Lemma step_candidate (md : option string) (acc : list (string * string))
    (href : string) :
  Select.step (md, acc) href =
  if SelectSpec.candidate false href then
    (match md with
     | Some h => Some h
     | None => if SelectSpec.preferred href then Some href else None
     end, (SelectSpec.filename href, href) :: acc)
  else (md, acc).
Proof.
  unfold Select.step, SelectSpec.candidate, SelectSpec.preferred,
    SelectSpec.filename.
  destruct (String.eqb_spec href EmptyString) as [->|Hne]; [reflexivity|].
  simpl.
  destruct (Py.contains "/Archives/edgar" href); simpl; [|reflexivity].
  destruct (Py.contains ".htm" (Py.lower href)); simpl; [|reflexivity].
  destruct (Py.contains "index" _); simpl; [reflexivity|].
  destruct (Py.contains "/search" href); simpl; [reflexivity|].
  destruct md; destruct (andb _ _); reflexivity.
Qed.

Lemma fold_step (hrefs : list string) (md : option string)
    (acc : list (string * string)) :
  fold_left Select.step hrefs (md, acc) =
  (match md with
   | Some h => Some h
   | None => find SelectSpec.preferred (filter (SelectSpec.candidate false) hrefs)
   end,
   (rev (map (fun h => (SelectSpec.filename h, h))
             (filter (SelectSpec.candidate false) hrefs)) ++ acc)%list).
Proof.
  revert md acc; induction hrefs as [|h hs IH]; intros md acc.
  - destruct md; reflexivity.
  - cbn [fold_left filter]; rewrite step_candidate.
    destruct (SelectSpec.candidate false h) eqn:Hc; rewrite IH; simpl.
    + destruct md as [m|]; simpl.
      * rewrite <- app_assoc; reflexivity.
      * destruct (SelectSpec.preferred h); simpl; rewrite <- app_assoc;
          reflexivity.
    + reflexivity.
Qed.

Lemma fallback_map (cands : list string) :
  Select.fallback (map (fun h => (SelectSpec.filename h, h)) cands) =
  match find (fun h => String.eqb (SelectSpec.filename h) "r1.htm") cands with
  | Some h => Some h
  | None => hd_error cands
  end.
Proof.
  unfold Select.fallback.
  assert (Hfind : forall l : list string,
    find (fun p => String.eqb (fst p) "r1.htm")
         (map (fun h => (SelectSpec.filename h, h)) l) =
    option_map (fun h => (SelectSpec.filename h, h))
      (find (fun h => String.eqb (SelectSpec.filename h) "r1.htm") l)).
  { induction l as [|h hs IH]; simpl; [reflexivity|].
    destruct (String.eqb (SelectSpec.filename h) "r1.htm"); auto. }
  rewrite Hfind.
  destruct (find (fun h => String.eqb (SelectSpec.filename h) "r1.htm") cands);
    [reflexivity|].
  destruct cands; reflexivity.
Qed.

(** Claim C1, as written, tests the HTML extension on the filename: a
    listing whose only archive link is [/Archives/edgar/data/1/0001/a.htm/main]
    has no such candidate, yet the code selects that link, because line 130
    tests [.htm] on the whole lowercased href. *)
Lemma C1_filename_htm_counterexample :
  Select.main_doc ["/Archives/edgar/data/1/0001/a.htm/main"] =
    Some "/Archives/edgar/data/1/0001/a.htm/main" /\
  SelectSpec.select true ["/Archives/edgar/data/1/0001/a.htm/main"] = None.
Proof. split; vm_compute; reflexivity. Qed.

(** Claim C1 (amended): the primary document is chosen among the links
    into the archive whose lowercased href contains [.htm], excluding
    filenames containing [index] and hrefs containing [/search]: the first
    candidate whose filename has no [exhibit] and is not a short name
    starting with [r]; else the first candidate named [r1.htm]; else the
    first candidate; no candidate gives no document. A listing of only
    [exhibit99.htm] and [r1.htm] gives [r1.htm]. *)
Theorem C1_main_doc_selection (hrefs : list string) :
  Select.main_doc hrefs = SelectSpec.select false hrefs /\
  Select.main_doc ["/Archives/edgar/data/1/0001/exhibit99.htm";
                   "/Archives/edgar/data/1/0001/r1.htm"] =
    Some "/Archives/edgar/data/1/0001/r1.htm".
Proof.
  split; [|vm_compute; reflexivity].
  unfold Select.main_doc, SelectSpec.select.
  rewrite fold_step, app_nil_r, rev_involutive.
  destruct (find SelectSpec.preferred (filter (SelectSpec.candidate false) hrefs));
    [reflexivity|].
  apply fallback_map.
Qed.

(** ** Filing selection *)

Lemma current_year_raises (w : World) :
  Downloader.current_year w = inl AttributeError.
Proof. reflexivity. Qed.

(** The selection loop itself keeps exactly the filings section 4.3
    describes, in input order. *)
Lemma select_loop_filter (ft : string) (quarter : option Z) (years : list Z)
    (filings : list filing) :
  Downloader.select_loop ft quarter years filings =
  filter (SelectorSpec.keep ft quarter years) filings.
Proof.
  induction filings as [|f fs IH]; [reflexivity|].
  cbn [Downloader.select_loop filter]; rewrite <- IH.
  generalize (Downloader.select_loop ft quarter years fs); intros rest.
  unfold SelectorSpec.keep, Downloader.filter_quarter.
  destruct (Py.int_of_string (Py.slice 0 4 (filing_date f))) as [y|];
    [|reflexivity].
  destruct (existsb (Z.eqb y) years); simpl; [|reflexivity].
  destruct (String.eqb ft "10-K"); simpl; [reflexivity|].
  destruct quarter as [q|]; [|reflexivity].
  destruct (Py.int_of_string (Py.slice 5 2 (report_date f))) as [m|];
    [|reflexivity].
  destruct ((m - 1) / 3 + 1 =? q); reflexivity.
Qed.

(** The rolling window of a year [cy] holds exactly [cy - 9 .. cy]. *)
Lemma rolling_window_members (cy y : Z) :
  existsb (Z.eqb y) (Downloader.years_to_include None cy) = true <->
  cy - 9 <= y <= cy.
Proof.
  unfold Downloader.years_to_include, Downloader.LAST_N_YEARS; simpl.
  rewrite !orb_true_iff, !Z.eqb_eq.
  split; [intros H; repeat destruct H as [H|H]; try discriminate; lia|].
  intros H.
  assert (Hc : y = cy - 9 \/ y = cy - 8 \/ y = cy - 7 \/ y = cy - 6 \/
               y = cy - 5 \/ y = cy - 4 \/ y = cy - 3 \/ y = cy - 2 \/
               y = cy - 1 \/ y = cy) by lia.
  repeat destruct Hc as [Hc|Hc]; subst; lia.
Qed.

(** Claim C2: for a non-[all] policy the selector never returns a
    selection: line 241 evaluates [datetime.timezone] on the class
    [datetime.datetime], which has no such attribute, so [AttributeError]
    is raised whatever the filings, year and quarter. *)
Theorem C2_selection_raises (w : World) (ft : string) (year quarter : option Z)
    (filings : list filing) :
  Downloader.select_filings w ft year quarter false filings = inl AttributeError.
Proof. unfold Downloader.select_filings; rewrite current_year_raises; reflexivity. Qed.

(** Claim C4: under policy [all] the selector raises [AttributeError] at
    line 241 as well, instead of returning its input. *)
Theorem C4_all_policy_raises (w : World) (ft : string) (year quarter : option Z)
    (filings : list filing) :
  Downloader.select_filings w ft year quarter true filings = inl AttributeError.
Proof. unfold Downloader.select_filings; rewrite current_year_raises; reflexivity. Qed.

(** ** Quarter derivation *)

(** Claim C3: for a month [m] in [1..12] the derived quarter is
    [(m-1)//3 + 1] and lies in [1..4] (months 1-12 give 1,1,1,2,2,2,3,3,3,
    4,4,4); the filter (lines 269-273) and the filename (lines 298-299)
    derive it by the same formula, so they agree on every report date. *)
Theorem C3_quarter_derivation :
  (forall m : Z, 1 <= m <= 12 ->
     1 <= (m - 1) / 3 + 1 <= 4 /\
     forall rd : string, Py.int_of_string (Py.slice 5 2 rd) = Some m ->
       Downloader.filter_quarter rd = Some ((m - 1) / 3 + 1) /\
       Downloader.filename_quarter rd = inr ((m - 1) / 3 + 1)) /\
  map (fun m => (m - 1) / 3 + 1) [1; 2; 3; 4; 5; 6; 7; 8; 9; 10; 11; 12] =
    [1; 1; 1; 2; 2; 2; 3; 3; 3; 4; 4; 4] /\
  (forall (rd : string) (q : Z),
     Downloader.filter_quarter rd = Some q <->
     Downloader.filename_quarter rd = inr q).
Proof.
  split; [|split; [reflexivity|]].
  - intros m Hm; split.
    + assert (Hm' : m = 1 \/ m = 2 \/ m = 3 \/ m = 4 \/ m = 5 \/ m = 6 \/
                    m = 7 \/ m = 8 \/ m = 9 \/ m = 10 \/ m = 11 \/ m = 12)
        by lia.
      repeat destruct Hm' as [Hm'|Hm']; subst; simpl; lia.
    + intros rd Hrd; unfold Downloader.filter_quarter,
        Downloader.filename_quarter; rewrite Hrd; split; reflexivity.
  - intros rd q; unfold Downloader.filter_quarter, Downloader.filename_quarter.
    destruct (Py.int_of_string (Py.slice 5 2 rd)); split; intros H;
      try discriminate; inversion H; reflexivity.
Qed.

(** ** The output roots *)

(** Claim C9: with no folder at all the constructor raises [ValueError];
    with only the shared folder both roots are that folder; with exactly
    one category-specific folder the other root is [None]. *)
Theorem C9_init_folders :
  Downloader.init_folders None None None = inl ValueError /\
  (forall f, Downloader.init_folders None None (Some f) =
             inr (Some (mk_path f), Some (mk_path f))) /\
  (forall a o, exists r, Downloader.init_folders (Some a) None o = inr (r, None)) /\
  (forall b o, exists r, Downloader.init_folders None (Some b) o = inr (None, r)).
Proof.
  split; [reflexivity|]; split; [reflexivity|]; split.
  - intros a o; destruct o; eexists; reflexivity.
  - intros b o; destruct o; eexists; reflexivity.
Qed.

(** ** Argument validation *)

Lemma select_loop_10K_quarter (q : option Z) (years : list Z)
    (filings : list filing) :
  Downloader.select_loop "10-K" q years filings =
  Downloader.select_loop "10-K" None years filings.
Proof.
  induction filings as [|f fs IH]; [reflexivity|]; simpl.
  rewrite IH; reflexivity.
Qed.

Lemma select_filings_10K_quarter (w : World) (year q : option Z)
    (download_all : bool) (filings : list filing) :
  Downloader.select_filings w "10-K" year q download_all filings =
  Downloader.select_filings w "10-K" year None download_all filings.
Proof.
  unfold Downloader.select_filings.
  destruct (Downloader.current_year w); [reflexivity|].
  destruct download_all; [reflexivity|].
  rewrite select_loop_10K_quarter; reflexivity.
Qed.

(** Claim C10: a filing type other than [10-K] and [10-Q], or a [10-Q]
    quarter outside [1..4], gives [False] with the state (lookup cache and
    trace of requests and writes) unchanged; for [10-K] the quarter is
    neither checked nor used. *)
Theorem C10_argument_checks :
  (forall w ticker ft year quarter download_all st,
     ft <> "10-K" -> ft <> "10-Q" ->
     Downloader.download_filing w ticker ft year quarter download_all st =
     (inr false, st)) /\
  (forall w ticker year z download_all st,
     ~ In z [1; 2; 3; 4] ->
     Downloader.download_filing w ticker "10-Q" year (Some z) download_all st =
     (inr false, st)) /\
  (forall w ticker year z download_all st,
     Downloader.download_filing w ticker "10-K" year (Some z) download_all st =
     Downloader.download_filing w ticker "10-K" year None download_all st).
Proof.
  split; [|split].
  - intros w ticker ft year quarter download_all st H1 H2.
    unfold Downloader.download_filing.
    apply String.eqb_neq in H1, H2; rewrite H1, H2; reflexivity.
  - intros w ticker year z download_all st Hz.
    unfold Downloader.download_filing.
    change (String.eqb "10-Q" "10-K") with false;
      change (String.eqb "10-Q" "10-Q") with true; cbn [negb orb andb].
    destruct (existsb (Z.eqb z) [1; 2; 3; 4]) eqn:E; [|reflexivity].
    exfalso; apply Hz; apply existsb_exists in E as [x [Hx Hxz]].
    apply Z.eqb_eq in Hxz; subst; exact Hx.
  - intros w ticker year z download_all st.
    unfold Downloader.download_filing.
    change (String.eqb "10-K" "10-K") with true;
      change (String.eqb "10-K" "10-Q") with false; cbn [negb orb andb].
    unfold bind.
    destruct (Downloader.get_cik w ticker st) as [[e|[c|]] st1];
      [reflexivity| |reflexivity].
    destruct (String.eqb c EmptyString); [reflexivity|].
    destruct (Downloader.get_filings_metadata w c "10-K" st1)
      as [[e|filings] st2]; [reflexivity|].
    destruct filings; [reflexivity|].
    rewrite select_filings_10K_quarter; reflexivity.
Qed.

(** ** Text cleanup *)

Lemma str_app_assoc (a b c : string) : ((a ++ b) ++ c) = (a ++ (b ++ c)).
Proof. induction a; simpl; congruence. Qed.

Lemma str_app_nil_r (a : string) : (a ++ "") = a.
Proof. induction a; simpl; congruence. Qed.

Lemma prefix_self (n y : string) : String.prefix n (n ++ y) = true.
Proof.
  induction n as [|c n IH]; [destruct y; reflexivity|]; simpl.
  destruct (ascii_dec c c); [exact IH|congruence].
Qed.

Lemma prefix_split (n s : string) :
  String.prefix n s = true -> exists y, s = (n ++ y).
Proof.
  revert s; induction n as [|c n IH]; intros s H; [exists s; reflexivity|].
  destruct s as [|d s]; [discriminate|]; simpl in H.
  destruct (ascii_dec c d) as [<-|]; [|discriminate].
  destruct (IH s H) as [y ->]; exists y; reflexivity.
Qed.

Lemma contains_iff (n s : string) :
  Py.contains n s = true <-> exists x y, s = (x ++ n ++ y).
Proof.
  split.
  - induction s as [|c s IH]; cbn [Py.contains]; intros H.
    + destruct (String.prefix n "") eqn:Hp; [|discriminate].
      destruct (prefix_split n "" Hp) as [y Hy].
      exists "", y; exact Hy.
    + destruct (String.prefix n (String c s)) eqn:Hp.
      * destruct (prefix_split _ _ Hp) as [y Hy]; exists "", y; exact Hy.
      * destruct (IH H) as [x [y ->]]; exists (String c x), y; reflexivity.
  - intros [x [y ->]]; induction x as [|c x IH].
    + pose proof (prefix_self n y) as Hp; simpl.
      destruct (n ++ y); cbn [Py.contains]; rewrite Hp; reflexivity.
    + change (String c x ++ n ++ y) with (String c (x ++ n ++ y)); cbn [Py.contains].
      destruct (String.prefix n _); [reflexivity|exact IH].
Qed.

Lemma contains_app_l (n a b : string) :
  Py.contains n a = true -> Py.contains n (a ++ b) = true.
Proof.
  rewrite !contains_iff; intros [x [y ->]]; exists x, (y ++ b).
  rewrite !str_app_assoc; reflexivity.
Qed.

Lemma rstrip_prefix (l : string) : exists suf, l = (Py.rstrip l ++ suf).
Proof.
  induction l as [|c r [suf Hsuf]]; [exists ""; reflexivity|]; simpl.
  destruct (andb (Py.is_space c) (String.eqb (Py.rstrip r) "")).
  - exists (String c r); reflexivity.
  - exists suf; simpl; congruence.
Qed.

Lemma rstrip_app (x z : string) :
  Py.rstrip z <> "" -> Py.rstrip (x ++ z) = (x ++ Py.rstrip z).
Proof.
  intros Hz; induction x as [|c x IH]; [reflexivity|]; simpl; rewrite IH.
  destruct (String.eqb_spec (x ++ Py.rstrip z) "") as [E|E].
  - exfalso; destruct x; simpl in E; [exact (Hz E)|discriminate].
  - rewrite andb_false_r; reflexivity.
Qed.

Lemma contains_marker_rstrip (l : string) :
  Py.contains Clean.marker (Py.rstrip l) = Py.contains Clean.marker l.
Proof.
  destruct (Py.contains Clean.marker l) eqn:H.
  - apply contains_iff in H as [x [y ->]]; apply contains_iff.
    exists x, (Py.rstrip y).
    assert (E : forall z, (Clean.marker ++ z) = ("UNITED STATE" ++ String "S" z))
      by reflexivity.
    rewrite !E, <- !str_app_assoc.
    rewrite rstrip_app by (simpl; discriminate).
    reflexivity.
  - destruct (Py.contains Clean.marker (Py.rstrip l)) eqn:H'; [|reflexivity].
    destruct (rstrip_prefix l) as [suf Hsuf].
    rewrite Hsuf, (contains_app_l _ _ _ H') in H; discriminate.
Qed.

Lemma clean_loop_skip_pre (pre rest : list string) :
  Forall (fun l => Py.contains Clean.marker l = false) pre ->
  Clean.clean_loop false (pre ++ rest) = Clean.clean_loop false rest.
Proof.
  induction 1 as [|l pre Hl _ IH]; [reflexivity|]; simpl.
  rewrite contains_marker_rstrip, Hl, IH; simpl.
  destruct (orb _ _); reflexivity.
Qed.

Lemma lstrip_marker (s : string) :
  Py.contains Clean.marker s = true -> Py.lstrip s <> "".
Proof.
  induction s as [|c r IH]; [discriminate|]; intros H.
  cbn [Py.contains] in H; simpl.
  destruct (Py.is_space c) eqn:Hc; [|discriminate].
  destruct (String.prefix Clean.marker (String c r)) eqn:Hp.
  - apply prefix_split in Hp as [y Hy]; injection Hy as -> _.
    discriminate.
  - exact (IH H).
Qed.

Lemma marker_line_not_blank (m : string) :
  Py.contains Clean.marker m = true ->
  orb (String.eqb (Py.rstrip m) "") (Py.len (Py.strip (Py.rstrip m)) =? 0)
  = false.
Proof.
  intros Hm.
  assert (H1 : Py.contains Clean.marker (Py.rstrip m) = true)
    by (rewrite contains_marker_rstrip; exact Hm).
  assert (H2 : Py.contains Clean.marker (Py.rstrip (Py.rstrip m)) = true)
    by (rewrite contains_marker_rstrip; exact H1).
  apply lstrip_marker in H2.
  unfold Py.len, Py.strip; revert H1 H2; generalize (Py.rstrip m) as s.
  intros s H1 H2.
  destruct s as [|c s]; [discriminate|].
  destruct (Py.lstrip (Py.rstrip (String c s))); [congruence|].
  reflexivity.
Qed.

Lemma clean_loop_marker_line (m : string) (post : list string) :
  Py.contains Clean.marker m = true ->
  Clean.clean_loop false (m :: post) = Clean.clean_loop true (m :: post).
Proof.
  intros Hm; cbn [Clean.clean_loop].
  rewrite (marker_line_not_blank m Hm), contains_marker_rstrip, Hm.
  reflexivity.
Qed.

Lemma clean_loop_no_marker (ls : list string) :
  Forall (fun l => Py.contains Clean.marker l = false) ls ->
  Clean.clean_loop false ls = [].
Proof.
  intros H; rewrite <- (app_nil_r ls), clean_loop_skip_pre by exact H.
  reflexivity.
Qed.

Lemma extract_text_long (text d : string) :
  Clean.extract_text text = Some d -> 5000 < Py.len d.
Proof.
  unfold Clean.extract_text; destruct (Py.len (Clean.cleaned_of text) >? 5000) eqn:E;
    intros H; [|discriminate].
  injection H as <-; apply Z.gtb_lt in E; lia.
Qed.

(** Claim C7: lines before the first line containing [UNITED STATES] are
    dropped and processing starts at that line; with no such line every
    line is dropped, the cleaned text is empty and extraction fails. *)
Theorem C7_preamble_dropped :
  (forall (text m : string) (pre post : list string),
     Py.split Py.nl text = (pre ++ m :: post)%list ->
     Forall (fun l => Py.contains Clean.marker l = false) pre ->
     Py.contains Clean.marker m = true ->
     Clean.cleaned_of text =
     Clean.collapse (Py.join (String Py.nl "")
                             (Clean.clean_loop true (m :: post)))) /\
  (forall text : string,
     Forall (fun l => Py.contains Clean.marker l = false)
            (Py.split Py.nl text) ->
     Clean.cleaned_of text = "" /\ Clean.extract_text text = None).
Proof.
  split.
  - intros text m pre post Hs Hpre Hm; unfold Clean.cleaned_of.
    rewrite Hs, clean_loop_skip_pre, clean_loop_marker_line by assumption.
    reflexivity.
  - intros text H.
    assert (E : Clean.cleaned_of text = "").
    { unfold Clean.cleaned_of; rewrite clean_loop_no_marker by exact H.
      reflexivity. }
    split; [exact E|]; unfold Clean.extract_text; rewrite E; reflexivity.
Qed.

Lemma C7_preamble_dropped_witness :
  Py.split Py.nl Scenario.text_with_preamble =
    (["Menu"] ++ "UNITED STATES" :: ["Form 10-K"])%list /\
  Clean.cleaned_of Scenario.text_with_preamble =
    ("UNITED STATES" ++ String Py.nl "Form 10-K").
Proof.
  split; [vm_compute; reflexivity|].
  rewrite ((proj1 C7_preamble_dropped) Scenario.text_with_preamble
             "UNITED STATES" ["Menu"] ["Form 10-K"]);
    [vm_compute; reflexivity|vm_compute; reflexivity|
     repeat constructor|vm_compute; reflexivity].
Defined.

(** Claim C6: once both fetches succeed, the extractor returns the cleaned
    text exactly when it is longer than 5000 characters and no document
    otherwise; any document it returns is longer than 5000 characters. *)
Theorem C6_short_text_fails :
  (forall (w : World) (cik acc : string) (st : dstate) (resp doc : response)
          (main : string),
     archive w (Downloader.dir_url cik acc) = Some resp ->
     status_code resp = 200 ->
     Select.main_doc (links resp) = Some main ->
     archive w (Downloader.doc_url main) = Some doc ->
     status_code doc = 200 ->
     fst (Downloader.fetch_filing w cik acc st) =
     inr (if Py.len (Clean.cleaned_of (page_text doc)) <=? 5000 then None
          else Some (Clean.cleaned_of (page_text doc)))) /\
  (forall (w : World) (cik acc : string) (st : dstate) (d : string),
     fst (Downloader.fetch_filing w cik acc st) = inr (Some d) ->
     5000 < Py.len d).
Proof.
  split.
  - intros w cik acc st resp doc main H1 H2 H3 H4 H5.
    unfold Downloader.fetch_filing, bind, emit, ret; cbn beta iota.
    rewrite H1, H2; cbn beta iota; rewrite H3, H4, H5; cbn beta iota.
    unfold Clean.extract_text.
    destruct (Py.len (Clean.cleaned_of (page_text doc)) <=? 5000) eqn:E.
    + apply Z.leb_le in E.
      destruct (Py.len (Clean.cleaned_of (page_text doc)) >? 5000) eqn:E';
        [apply Z.gtb_lt in E'; lia|reflexivity].
    + apply Z.leb_gt in E.
      destruct (Py.len (Clean.cleaned_of (page_text doc)) >? 5000) eqn:E';
        [reflexivity|].
      rewrite Z.gtb_ltb in E'; apply Z.ltb_ge in E'; lia.
  - intros w cik acc st d.
    unfold Downloader.fetch_filing, bind, emit, ret; cbn beta iota.
    destruct (archive w (Downloader.dir_url cik acc)) as [resp|];
      [|discriminate].
    destruct (negb (status_code resp =? 200)); [discriminate|].
    destruct (Select.main_doc (links resp)) as [main|]; [|discriminate].
    destruct (archive w (Downloader.doc_url main)) as [doc|]; [|discriminate].
    destruct (negb (status_code doc =? 200)); [discriminate|].
    simpl; intros H; injection H as H; exact (extract_text_long _ _ H).
Qed.

Lemma C6_short_text_fails_witness :
  Select.main_doc (links Scenario.listing) =
    Some "/Archives/edgar/data/320193/000032019322000108/aapl-20220924.htm" /\
  fst (Downloader.fetch_filing Scenario.world "0000320193"
         "0000320193-22-000108" Scenario.start) = inr None.
Proof.
  split; [vm_compute; reflexivity|].
  rewrite ((proj1 C6_short_text_fails) Scenario.world "0000320193"
             "0000320193-22-000108" Scenario.start Scenario.listing
             Scenario.placeholder
             "/Archives/edgar/data/320193/000032019322000108/aapl-20220924.htm");
    vm_compute; reflexivity.
Defined.

(** ** Output paths *)

(** Claim C8: the file is written to
    [{root}/{SYMBOL}/original/10K-{SYMBOL}-{year}.txt] for [10-K] and
    [{root}/{SYMBOL}/original/10Q-{SYMBOL}-Q{quarter}{year}.txt] for [10-Q],
    with the year the first four characters of the filing date and the
    quarter derived from the report month; two filings of the same
    symbol, category and period get the same path. *)
Theorem C8_output_path :
  (forall (root : path) (ticker filename : string),
     Downloader.output_path (Some root) ticker filename =
     Some (root ++ [Py.upper ticker; "original"; filename])%list) /\
  (forall (ticker : string) (f : filing),
     Downloader.filename_for ticker "10-K" f =
     inr ("10K-" ++ Py.upper ticker ++ "-" ++ Py.slice 0 4 (filing_date f)
          ++ ".txt")) /\
  (forall (ticker : string) (f : filing) (m : Z),
     Py.int_of_string (Py.slice 5 2 (report_date f)) = Some m ->
     Downloader.filename_for ticker "10-Q" f =
     inr ("10Q-" ++ Py.upper ticker ++ "-Q" ++ Py.str_of_int ((m - 1) / 3 + 1)
          ++ Py.slice 0 4 (filing_date f) ++ ".txt")) /\
  (forall (ticker ft : string) (f1 f2 : filing),
     Py.slice 0 4 (filing_date f1) = Py.slice 0 4 (filing_date f2) ->
     (ft = "10-K" \/
      Downloader.filename_quarter (report_date f1) =
      Downloader.filename_quarter (report_date f2)) ->
     Downloader.filename_for ticker ft f1 = Downloader.filename_for ticker ft f2).
Proof.
  split; [reflexivity|]; split; [reflexivity|]; split.
  - intros ticker f m Hm; unfold Downloader.filename_for,
      Downloader.filename_quarter; rewrite Hm; reflexivity.
  - intros ticker ft f1 f2 Hy Hq; unfold Downloader.filename_for.
    rewrite Hy.
    destruct (String.eqb_spec ft "10-K") as [_|Hft]; [reflexivity|].
    destruct Hq as [Hq|Hq]; [contradiction|]; rewrite Hq; reflexivity.
Qed.

Lemma C8_output_path_witness :
  Py.int_of_string (Py.slice 5 2 (report_date Scenario.q2_filing)) = Some 6 /\
  Downloader.filename_for "zt" "10-Q" Scenario.q2_filing =
    inr "10Q-ZT-Q22022.txt".
Proof.
  split; [vm_compute; reflexivity|].
  rewrite ((proj1 (proj2 (proj2 C8_output_path))) "zt" Scenario.q2_filing 6);
    vm_compute; reflexivity.
Defined.

(** ** Batches *)

(** Claim C5: a batch over [AAPL] and [MSFT] whose first unit finds a 10-K
    does not report per unit: the [AttributeError] of line 241 escapes
    [download_filing] and [download_batch], and the [MSFT] unit is never
    started (its filing index is never requested). *)
Theorem C5_batch_aborted :
  let r := Downloader.download_batch Scenario.world ["AAPL"; "MSFT"] ["10-K"]
             None false Scenario.start in
  fst r = inl AttributeError /\
  ~ In (Get "https://data.sec.gov/submissions/CIK0000789019.json") (trace (snd r)).
Proof.
  vm_compute; split; [reflexivity|].
  intros [H|H]; [discriminate|exact H].
Qed.

Lemma C3_quarter_derivation_witness :
  1 <= 5 <= 12 /\
  Downloader.filter_quarter "2022-05-31" = Some 2 /\
  Downloader.filename_quarter "2022-05-31" = inr 2.
Proof.
  split; [lia|].
  exact (proj2 ((proj1 C3_quarter_derivation) 5 ltac:(lia)) "2022-05-31"
           eq_refl).
Defined.

Lemma C10_argument_checks_witness :
  Downloader.download_filing Scenario.world "AAPL" "10-X" None None false
    Scenario.start = (inr false, Scenario.start) /\
  Downloader.download_filing Scenario.world "AAPL" "10-Q" None (Some 5) false
    Scenario.start = (inr false, Scenario.start).
Proof.
  split.
  - apply (proj1 C10_argument_checks); discriminate.
  - apply (proj1 (proj2 C10_argument_checks)); simpl; lia.
Defined.

(* ================================================================== *)
(** * Further properties of the code *)

(** ** CIK resolution *)

Lemma dict_get_set_same {V} (k : string) (v : V) (d : list (string * V)) :
  dict_get k (dict_set k v d) = Some v.
Proof.
  induction d as [|[k' v'] d IH]; simpl.
  - rewrite String.eqb_refl; reflexivity.
  - destruct (String.eqb_spec k k') as [<-|Hne]; simpl.
    + rewrite String.eqb_refl; reflexivity.
    + apply String.eqb_neq in Hne; rewrite Hne; exact IH.
Qed.

Lemma zfill_length (w : nat) (s : string) :
  String.length (Py.zfill w s) = Nat.max w (String.length s).
Proof.
  unfold Py.zfill.
  assert (H : forall k, String.length
    ((fix pad k := match k with O => s | S k' => String "0"%char (pad k') end) k)
    = (k + String.length s)%nat) by (induction k; simpl; lia).
  rewrite H; lia.
Qed.

(** A ticker already in the lookup table, in any letter case, is resolved
    from the table: no request is issued and the state is unchanged. *)
Theorem get_cik_cached (w : World) (ticker cik : string) (st : dstate) :
  dict_get (Py.upper ticker) (cik_lookup st) = Some cik ->
  Downloader.get_cik w ticker st = (inr (Some cik), st).
Proof.
  intros H; unfold Downloader.get_cik, bind, gets; rewrite H; reflexivity.
Qed.

Lemma get_cik_cached_witness :
  dict_get (Py.upper "aapl") (cik_lookup Scenario.start) = Some "0000320193" /\
  Downloader.get_cik Scenario.world "aapl" Scenario.start =
    (inr (Some "0000320193"), Scenario.start).
Proof.
  split; [vm_compute; reflexivity|].
  apply get_cik_cached; vm_compute; reflexivity.
Defined.



(** On a cache miss whose search finds [CIK=<digits>], [_get_cik] returns
    the number re-rendered and zero-padded to at least 10 characters and
    stores it under the uppercased ticker: a later call with the ticker in
    any letter case is answered from the table without a request. *)
Theorem get_cik_search_caches (w : World) (ticker body ds : string) (n : Z)
    (st : dstate) :
  dict_get (Py.upper ticker) (cik_lookup st) = None ->
  search_page w (search_url ticker) = Some body ->
  Downloader.search_cik body = Some ds ->
  Py.int_of_string ds = Some n ->
  let '(r, st') := Downloader.get_cik w ticker st in
  let cik := Py.zfill 10 (Py.str_of_int n) in
  r = inr (Some cik) /\ (10 <= String.length cik)%nat /\
  forall ticker', Py.upper ticker' = Py.upper ticker ->
    Downloader.get_cik w ticker' st' = (inr (Some cik), st').
Proof.
  intros Hmiss Hs Hb Hn.
  assert (E : Downloader.get_cik w ticker st =
    (inr (Some (Py.zfill 10 (Py.str_of_int n))),
     {| output_folder_10k := output_folder_10k st;
        output_folder_10q := output_folder_10q st;
        cik_lookup := dict_set (Py.upper ticker)
                        (Py.zfill 10 (Py.str_of_int n)) (cik_lookup st);
        trace := (trace st ++ [Get (search_url ticker)])%list |})).
  { unfold Downloader.get_cik, bind, gets, emit, set_lookup, ret.
    rewrite Hmiss; cbn beta iota.
    change (search_url ticker) with
      ("https://www.sec.gov/cgi-bin/browse-edgar?action=getcompany&company="
       ++ ticker ++
       "&type=&dateb=&owner=exclude&count=100&search_text=&CIK=&myHID=") in *.
    rewrite Hs, Hb, Hn; reflexivity. }
  rewrite E.
  split; [reflexivity|]; split; [rewrite zfill_length; lia|].
  intros ticker' Hu; apply get_cik_cached; simpl.
  rewrite Hu; apply dict_get_set_same.
Qed.

Lemma get_cik_search_caches_witness :
  let w := {| search_page := fun _ => Some "<a href=x?CIK=0000320193&y>";
              submissions := fun _ => None; archive := fun _ => None;
              write_ok := fun _ => true; utc_year := 2026 |} in
  let st := {| output_folder_10k := None; output_folder_10q := None;
               cik_lookup := []; trace := [] |} in
  fst (Downloader.get_cik w "aapl" st) = inr (Some "0000320193") /\
  Downloader.get_cik w "AAPL" (snd (Downloader.get_cik w "aapl" st)) =
    (inr (Some "0000320193"), snd (Downloader.get_cik w "aapl" st)).
Proof.
  intros w st.
  pose proof (get_cik_search_caches w "aapl" "<a href=x?CIK=0000320193&y>"
                "0000320193" 320193 st eq_refl eq_refl eq_refl eq_refl) as H.
  destruct (Downloader.get_cik w "aapl" st) as [r st'] eqn:E.
  destruct H as [Hr [_ Hc]]; split; [exact Hr|].
  exact (Hc "AAPL" eq_refl).
Defined.

(** ** The filing index *)

Lemma collect_sound (ft : string) (r : recent) (fs : list string) (i : nat)
    (f : filing) :
  In f (Downloader.collect ft r i fs) ->
  form_type f = ft /\
  exists j, nth_error fs j = Some ft /\
    nth_error (accession_numbers r) (i + j) = Some (accession_number f) /\
    nth_error (filing_dates r) (i + j) = Some (filing_date f) /\
    nth_error (report_dates r) (i + j) = Some (report_date f).
Proof.
  revert i; induction fs as [|form fs IH]; intros i H; [destruct H|].
  simpl in H.
  destruct (String.eqb_spec form ft) as [<-|Hne].
  - destruct (nth_error (accession_numbers r) i) as [a|] eqn:Ea;
    destruct (nth_error (filing_dates r) i) as [fd|] eqn:Efd;
    destruct (nth_error (report_dates r) i) as [rd|] eqn:Erd;
    try (destruct (IH (S i) H) as [Hf [j Hj]]; split; [exact Hf|];
         exists (S j); rewrite <- Nat.add_succ_comm; exact Hj).
    destruct H as [<-|H].
    + split; [reflexivity|]; exists 0%nat; rewrite Nat.add_0_r; simpl; auto.
    + destruct (IH (S i) H) as [Hf [j Hj]]; split; [exact Hf|].
      exists (S j); rewrite <- Nat.add_succ_comm; exact Hj.
  - destruct (IH (S i) H) as [Hf [j Hj]]; split; [exact Hf|].
    exists (S j); rewrite <- Nat.add_succ_comm; exact Hj.
Qed.

(** Every filing [_get_filings_metadata] reads has the requested form, and
    its accession number, filing date and report date are the entries of
    the parallel arrays at one position where [form] holds that form. *)
Theorem filings_metadata_sound (ft : string) (r : recent) (f : filing) :
  In f (Downloader.collect ft r 0 (forms r)) ->
  form_type f = ft /\
  exists i, nth_error (forms r) i = Some ft /\
    nth_error (accession_numbers r) i = Some (accession_number f) /\
    nth_error (filing_dates r) i = Some (filing_date f) /\
    nth_error (report_dates r) i = Some (report_date f).
Proof. apply collect_sound. Qed.

Lemma filings_metadata_sound_witness :
  In {| accession_number := "0000320193-22-000108";
        filing_date := "2022-10-28"; report_date := "2022-09-24";
        form_type := "10-K" |}
     (Downloader.collect "10-K" Scenario.aapl_recent 0
        (forms Scenario.aapl_recent)) /\
  nth_error (filing_dates Scenario.aapl_recent) 0 = Some "2022-10-28".
Proof.
  split; [left; reflexivity|].
  destruct (filings_metadata_sound "10-K" Scenario.aapl_recent
    {| accession_number := "0000320193-22-000108";
       filing_date := "2022-10-28"; report_date := "2022-09-24";
       form_type := "10-K" |} (or_introl eq_refl)) as [_ [i [Hi [_ [Hd _]]]]].
  destruct i as [|[|i]]; [exact Hd|discriminate|destruct i; discriminate].
Defined.





(** ** The bulk lookup table *)

Lemma dict_get_set {V} (k k' : string) (v : V) (d : list (string * V)) :
  dict_get k' (dict_set k v d) = if String.eqb k' k then Some v else dict_get k' d.
Proof.
  induction d as [|[k0 v0] d IH]; simpl.
  - reflexivity.
  - destruct (String.eqb_spec k k0) as [<-|Hne]; simpl.
    + destruct (String.eqb k' k); reflexivity.
    + rewrite IH. destruct (String.eqb_spec k' k0) as [->|];
        [|reflexivity].
      apply String.eqb_neq in Hne; rewrite String.eqb_sym, Hne; reflexivity.
Qed.

Lemma load_entries_bad (es : list Construct.ticker_entry) table :
  Exists (fun e => ~ entry_ok e) es -> Construct.load_entries es table = None.
Proof.
  intros H; revert table; induction H as [e es Hb|e es _ IH]; intros table;
    simpl.
  - unfold entry_ok in Hb.
    destruct (Construct.entry_ticker e) eqn:E1, (Construct.entry_cik e) eqn:E2;
      try reflexivity.
    exfalso; apply Hb; split; discriminate.
  - destruct (Construct.entry_ticker e), (Construct.entry_cik e);
      try reflexivity; apply IH.
Qed.

Lemma load_entries_good (es : list Construct.ticker_entry) table :
  Forall entry_ok es ->
  (forall k v, dict_get k table = Some v -> (10 <= String.length v)%nat) ->
  exists t', Construct.load_entries es table = Some t' /\
    (forall k v, dict_get k t' = Some v -> (10 <= String.length v)%nat) /\
    (forall k, dict_get k table <> None -> dict_get k t' <> None) /\
    Forall (fun e => forall t, Construct.entry_ticker e = Some t ->
                       dict_get (Py.upper t) t' <> None) es.
Proof.
  intros H; revert table; induction H as [|e es [Ht Hc] _ IH]; intros table Hv.
  - exists table; repeat split; auto.
  - simpl. destruct (Construct.entry_ticker e) as [t|] eqn:Et; [|congruence].
    destruct (Construct.entry_cik e) as [c|] eqn:Ec; [|congruence].
    destruct (IH (dict_set (Py.upper t) (Py.zfill 10 (Py.str_of_int c)) table))
      as [t' [E [Hv' [Hk Hall]]]].
    { intros k v; rewrite dict_get_set; destruct (String.eqb k (Py.upper t)).
      - intros H; injection H as <-; rewrite zfill_length; lia.
      - apply Hv. }
    exists t'; split; [exact E|]; split; [exact Hv'|]; split.
    + intros k Hk0; apply Hk; rewrite dict_get_set.
      destruct (String.eqb k (Py.upper t)); [discriminate|exact Hk0].
    + constructor; [|exact Hall].
      intros t0 Ht0; rewrite Et in Ht0; injection Ht0 as <-.
      apply Hk; rewrite dict_get_set_same; discriminate.
Qed.

(** [_load_cik_lookup] loads all or nothing: when every entry has a ticker
    and a CIK, every ticker is in the table under its uppercased form and
    every stored CIK has at least 10 characters; when one entry lacks
    either key the table is left empty, also the entries before it. *)
Theorem load_cik_lookup_all_or_nothing (es : list Construct.ticker_entry) :
  (Forall entry_ok es ->
   (forall k v, dict_get k (Construct.load_cik_lookup (Some es)) = Some v ->
      (10 <= String.length v)%nat) /\
   Forall (fun e => forall t, Construct.entry_ticker e = Some t ->
     dict_get (Py.upper t) (Construct.load_cik_lookup (Some es)) <> None) es) /\
  (Exists (fun e => ~ entry_ok e) es ->
   Construct.load_cik_lookup (Some es) = []).
Proof.
  split.
  - intros H; destruct (load_entries_good es [] H) as [t' [E [Hv [_ Hall]]]].
    { intros k v Hk; discriminate. }
    unfold Construct.load_cik_lookup; rewrite E; split; assumption.
  - intros H; unfold Construct.load_cik_lookup; rewrite load_entries_bad;
      [reflexivity|exact H].
Qed.

Lemma load_cik_lookup_all_or_nothing_witness :
  Construct.load_cik_lookup
    (Some [{| Construct.entry_ticker := Some "aapl";
              Construct.entry_cik := Some 320193 |};
           {| Construct.entry_ticker := None;
              Construct.entry_cik := Some 789019 |}]) = [] /\
  dict_get "AAPL" (Construct.load_cik_lookup
    (Some [{| Construct.entry_ticker := Some "aapl";
              Construct.entry_cik := Some 320193 |}])) <> None.
Proof.
  split.
  - apply (proj2 (load_cik_lookup_all_or_nothing _)).
    apply Exists_cons_tl, Exists_cons_hd; intros [H _]; apply H; reflexivity.
  - pose proof (proj2 (proj1 (load_cik_lookup_all_or_nothing
      [{| Construct.entry_ticker := Some "aapl";
          Construct.entry_cik := Some 320193 |}])
      ltac:(repeat constructor; discriminate))) as H.
    inversion H as [|e es He _]; exact (He "aapl" eq_refl).
Defined.

(** ** Unresolvable tickers and batches *)

Lemma get_cik_miss_none (w : World) (ticker : string) (st : dstate) :
  dict_get (Py.upper ticker) (cik_lookup st) = None ->
  search_page w (search_url ticker) = None ->
  Downloader.get_cik w ticker st =
    (inr None, with_trace st (trace st ++ [Get (search_url ticker)])%list).
Proof.
  intros Hmiss Hs; unfold Downloader.get_cik, bind, gets, emit.
  rewrite Hmiss; cbn beta iota.
  change (search_url ticker) with
    ("https://www.sec.gov/cgi-bin/browse-edgar?action=getcompany&company="
     ++ ticker ++
     "&type=&dateb=&owner=exclude&count=100&search_text=&CIK=&myHID=") in *.
  rewrite Hs; reflexivity.
Qed.

Lemma download_filing_unresolved_state (w : World) (ticker ft : string)
    (year quarter : option Z) (download_all : bool) (st : dstate) :
  dict_get (Py.upper ticker) (cik_lookup st) = None ->
  search_page w (search_url ticker) = None ->
  Downloader.download_filing w ticker ft year quarter download_all st =
    (inr false, st) \/
  Downloader.download_filing w ticker ft year quarter download_all st =
    (inr false, with_trace st (trace st ++ [Get (search_url ticker)])%list).
Proof.
  intros Hmiss Hs; unfold Downloader.download_filing.
  destruct (negb _); [left; reflexivity|].
  destruct (andb _ _); [left; reflexivity|].
  right; unfold bind at 1; rewrite get_cik_miss_none by assumption.
  reflexivity.
Qed.

(** A ticker that is not in the lookup table and whose search request
    fails makes [download_filing] return [False]: the filing index is never
    requested, the lookup table is unchanged, and at most the search
    request is issued. *)
Theorem download_filing_unresolved (w : World) (ticker ft : string)
    (year quarter : option Z) (download_all : bool) (st : dstate) :
  dict_get (Py.upper ticker) (cik_lookup st) = None ->
  search_page w (search_url ticker) = None ->
  let '(r, st') := Downloader.download_filing w ticker ft year quarter
                     download_all st in
  r = inr false /\ cik_lookup st' = cik_lookup st /\
  (trace st' = trace st \/
   trace st' = (trace st ++ [Get (search_url ticker)])%list).
Proof.
  intros Hmiss Hs.
  destruct (download_filing_unresolved_state w ticker ft year quarter
              download_all st Hmiss Hs) as [E|E]; rewrite E.
  - split; [reflexivity|split; [reflexivity|left; reflexivity]].
  - split; [reflexivity|split; [reflexivity|right; reflexivity]].
Qed.

Lemma download_filing_unresolved_witness :
  dict_get (Py.upper "zzzz") (cik_lookup Scenario.start) = None /\
  fst (Downloader.download_filing Scenario.world "zzzz" "10-K" (Some 2022)
         None false Scenario.start) = inr false.
Proof.
  split; [vm_compute; reflexivity|].
  pose proof (download_filing_unresolved Scenario.world "zzzz" "10-K"
                (Some 2022) None false Scenario.start eq_refl eq_refl) as H.
  destruct (Downloader.download_filing Scenario.world "zzzz" "10-K"
              (Some 2022) None false Scenario.start) as [r st'].
  exact (proj1 H).
Defined.

Lemma bind_inr {A B} (m : PY A) (k : A -> PY B) (st st1 : dstate) (a : A) :
  m st = (inr a, st1) -> bind m k st = k a st1.
Proof. intros E; unfold bind; rewrite E; reflexivity. Qed.

Lemma all_false_set (k : string) (res : list (string * bool)) :
  all_false res -> all_false (dict_set k false res).
Proof.
  intros H k' v; rewrite dict_get_set; destruct (String.eqb k' k).
  - intros E; injection E as <-; reflexivity.
  - apply H.
Qed.

Lemma present_set {V} (k k' : string) (v : V) (d : list (string * V)) :
  dict_get k d <> None -> dict_get k (dict_set k' v d) <> None.
Proof. rewrite dict_get_set; destruct (String.eqb k k'); [discriminate|auto]. Qed.

Lemma present_set_same {V} (k : string) (v : V) (d : list (string * V)) :
  dict_get k (dict_set k v d) <> None.
Proof. rewrite dict_get_set_same; discriminate. Qed.

Lemma download_filing_unresolved_ex (w : World) (ticker ft : string)
    (year quarter : option Z) (download_all : bool) (st : dstate) :
  dict_get (Py.upper ticker) (cik_lookup st) = None ->
  search_page w (search_url ticker) = None ->
  exists st', Downloader.download_filing w ticker ft year quarter download_all st
              = (inr false, st') /\ cik_lookup st' = cik_lookup st.
Proof.
  intros Hm Hs; destruct (download_filing_unresolved_state w ticker ft year
    quarter download_all st Hm Hs) as [E|E]; eexists; split; try exact E;
    reflexivity.
Qed.

Lemma batch_years_unresolved (w : World) (ticker ft : string) (ys : list Z)
    (res : list (string * bool)) (st : dstate) :
  dict_get (Py.upper ticker) (cik_lookup st) = None ->
  search_page w (search_url ticker) = None ->
  all_false res ->
  exists res' st', Downloader.batch_years w ticker ft ys res st = (inr res', st') /\
    cik_lookup st' = cik_lookup st /\ all_false res' /\
    (forall k, dict_get k res <> None -> dict_get k res' <> None) /\
    (forall y, In y ys ->
       dict_get (ticker ++ "-" ++ ft ++ "-" ++ Py.str_of_int y) res' <> None).
Proof.
  revert res st; induction ys as [|y ys IH]; intros res st Hm Hs Hf.
  - exists res, st; repeat split; auto; intros y [].
  - simpl; unfold bind at 1.
    destruct (download_filing_unresolved_ex w ticker ft (Some y) None false st
                Hm Hs) as [st1 [E Hl]]; rewrite E.
    rewrite <- Hl in Hm.
    destruct (IH (dict_set (ticker ++ "-" ++ ft ++ "-" ++ Py.str_of_int y) false res)
                st1 Hm Hs (all_false_set _ _ Hf)) as [res' [st' [E' [Hl' [Hf' [Hk Hy]]]]]].
    exists res', st'; split; [exact E'|]; split; [congruence|]; split; [exact Hf'|].
    split.
    + intros k Hk0; apply Hk, present_set, Hk0.
    + intros y' [<-|Hy']; [apply Hk, present_set_same|apply Hy, Hy'].
Qed.

Lemma batch_types_unresolved (w : World) (ticker : string) (fts : list string)
    (years : option (list Z)) (download_all : bool)
    (res : list (string * bool)) (st : dstate) :
  dict_get (Py.upper ticker) (cik_lookup st) = None ->
  search_page w (search_url ticker) = None ->
  all_false res ->
  exists res' st',
    Downloader.batch_types w ticker fts years download_all res st = (inr res', st') /\
    cik_lookup st' = cik_lookup st /\ all_false res' /\
    (forall k, dict_get k res <> None -> dict_get k res' <> None) /\
    (forall ft k, In ft fts -> In k (BatchKeys.unit_keys ticker ft years download_all) ->
       dict_get k res' <> None).
Proof.
  revert res st; induction fts as [|ft fts IH]; intros res st Hm Hs Hf.
  - exists res, st; repeat split; auto; intros ft k [].
  - assert (Step : exists res1 st1,
      (if download_all then
         bind (Downloader.download_filing w ticker ft None None true)
           (fun r => ret (dict_set (ticker ++ "-" ++ ft ++ "-all") r res))
       else match years with
            | Some ((_ :: _) as ys) => Downloader.batch_years w ticker ft ys res
            | _ => bind (Downloader.download_filing w ticker ft None None false)
                     (fun r => ret (dict_set (ticker ++ "-" ++ ft) r res))
            end) st = (inr res1, st1) /\
      cik_lookup st1 = cik_lookup st /\ all_false res1 /\
      (forall k, dict_get k res <> None -> dict_get k res1 <> None) /\
      (forall k, In k (BatchKeys.unit_keys ticker ft years download_all) ->
         dict_get k res1 <> None)).
    { unfold BatchKeys.unit_keys; destruct download_all.
      - destruct (download_filing_unresolved_ex w ticker ft None None true st Hm Hs)
          as [st1 [E Hl]].
        exists (dict_set (ticker ++ "-" ++ ft ++ "-all") false res), st1.
        unfold bind; rewrite E; split; [reflexivity|]; split; [exact Hl|].
        split; [apply all_false_set, Hf|]; split.
        + intros k; apply present_set.
        + intros k [<-|[]]; apply present_set_same.
      - destruct years as [[|y ys]|];
          try (destruct (download_filing_unresolved_ex w ticker ft None None false
                           st Hm Hs) as [st1 [E Hl]];
               exists (dict_set (ticker ++ "-" ++ ft) false res), st1;
               unfold bind; rewrite E; split; [reflexivity|]; split; [exact Hl|];
               split; [apply all_false_set, Hf|]; split;
               [intros k; apply present_set|intros k [<-|[]]; apply present_set_same]).
        destruct (batch_years_unresolved w ticker ft (y :: ys) res st Hm Hs Hf)
          as [res1 [st1 [E [Hl [Hf1 [Hk Hy]]]]]].
        exists res1, st1; split; [exact E|]; split; [exact Hl|]; split; [exact Hf1|].
        split; [exact Hk|].
        intros k Hin; apply in_map_iff in Hin as [y' [<- Hy']]; apply Hy, Hy'. }
    destruct Step as [res1 [st1 [E [Hl [Hf1 [Hk1 Hkeys1]]]]]].
    cbn [Downloader.batch_types]; erewrite bind_inr; [|exact E].
    rewrite <- Hl in Hm.
    destruct (IH res1 st1 Hm Hs Hf1) as [res' [st' [E' [Hl' [Hf' [Hk' Hkeys']]]]]].
    exists res', st'; split; [exact E'|]; split; [congruence|]; split; [exact Hf'|].
    split; [intros k H; apply Hk', Hk1, H|].
    intros ft' k [<-|Hin] Hk; [apply Hk', Hkeys1, Hk|apply (Hkeys' ft' k Hin Hk)].
Qed.

Lemma batch_tickers_unresolved (w : World) (tickers fts : list string)
    (years : option (list Z)) (download_all : bool)
    (res : list (string * bool)) (st : dstate) :
  Forall (fun t => dict_get (Py.upper t) (cik_lookup st) = None /\
                   search_page w (search_url t) = None) tickers ->
  all_false res ->
  exists res' st',
    Downloader.batch_tickers w tickers fts years download_all res st =
      (inr res', st') /\ all_false res' /\
    (forall k, dict_get k res <> None -> dict_get k res' <> None) /\
    (forall t ft k, In t tickers -> In ft fts ->
       In k (BatchKeys.unit_keys t ft years download_all) ->
       dict_get k res' <> None).
Proof.
  revert res st; induction tickers as [|t ts IH]; intros res st Hall Hf.
  - exists res, st; repeat split; auto; intros t ft k [].
  - inversion Hall as [|? ? [Hm Hs] Hts]; subst.
    destruct (batch_types_unresolved w t fts years download_all res st Hm Hs Hf)
      as [res1 [st1 [E [Hl [Hf1 [Hk1 Hkeys1]]]]]].
    cbn [Downloader.batch_tickers]; erewrite bind_inr; [|exact E].
    rewrite <- Hl in Hts.
    destruct (IH res1 st1 Hts Hf1) as [res' [st' [E' [Hf' [Hk' Hkeys']]]]].
    exists res', st'; split; [exact E'|]; split; [exact Hf'|].
    split; [intros k H; apply Hk', Hk1, H|].
    intros t' ft k [<-|Hin] Hft Hk; [apply Hk', (Hkeys1 ft k Hft Hk)|].
    exact (Hkeys' t' ft k Hin Hft Hk).
Qed.

(** When no ticker of a batch can be resolved (none is in the lookup table
    and every search request fails), [download_batch] completes without an
    exception and reports [False] under every key it is meant to write:
    [{ticker}-{type}-all], [{ticker}-{type}-{year}] or [{ticker}-{type}]. *)
Theorem download_batch_unresolved (w : World) (tickers fts : list string)
    (years : option (list Z)) (download_all : bool) (st : dstate) :
  Forall (fun t => dict_get (Py.upper t) (cik_lookup st) = None /\
                   search_page w (search_url t) = None) tickers ->
  exists res, fst (Downloader.download_batch w tickers fts years download_all st)
                = inr res /\
    (forall k v, dict_get k res = Some v -> v = false) /\
    (forall t ft k, In t tickers -> In ft fts ->
       In k (BatchKeys.unit_keys t ft years download_all) ->
       dict_get k res = Some false).
Proof.
  intros H.
  destruct (batch_tickers_unresolved w tickers fts years download_all [] st H)
    as [res [st' [E [Hf [_ Hkeys]]]]]; [intros k v E; discriminate|].
  exists res; unfold Downloader.download_batch; rewrite E; split; [reflexivity|].
  split; [exact Hf|].
  intros t ft k Ht Hft Hk; specialize (Hkeys t ft k Ht Hft Hk).
  destruct (dict_get k res) as [v|] eqn:Ev; [|congruence].
  rewrite (Hf k v Ev); reflexivity.
Qed.

Lemma download_batch_unresolved_witness :
  dict_get "ZZZZ" (cik_lookup Scenario.start) = None /\
  dict_get "YYYY" (cik_lookup Scenario.start) = None /\
  fst (Downloader.download_batch Scenario.world ["zzzz"; "yyyy"]
         ["10-K"; "10-Q"] (Some [2023; 2024]) false Scenario.start) =
  inr [("zzzz-10-K-2023", false); ("zzzz-10-K-2024", false);
       ("zzzz-10-Q-2023", false); ("zzzz-10-Q-2024", false);
       ("yyyy-10-K-2023", false); ("yyyy-10-K-2024", false);
       ("yyyy-10-Q-2023", false); ("yyyy-10-Q-2024", false)].
Proof.
  split; [vm_compute; reflexivity|]; split; [vm_compute; reflexivity|].
  destruct (download_batch_unresolved Scenario.world ["zzzz"; "yyyy"]
              ["10-K"; "10-Q"] (Some [2023; 2024]) false Scenario.start
              ltac:(repeat constructor)) as [res [E _]].
  rewrite E; revert E; vm_compute; intros E; exact (eq_sym E).
Defined.

(** ** The primary document and the fetch *)

(** The document [_fetch_filing_from_edgar] requests is always one of the
    listing's links, and one that passes the candidate filter of line 130
    and 133 (an archive link with [.htm] in its lowercased href, no
    [index] in its filename, no [/search] in the href); the code finds no
    document exactly when no link passes that filter. *)
Theorem main_doc_candidate (hrefs : list string) :
  (forall h, Select.main_doc hrefs = Some h ->
     In h hrefs /\ SelectSpec.candidate false h = true) /\
  (Select.main_doc hrefs = None <->
     forall h, In h hrefs -> SelectSpec.candidate false h = false).
Proof.
  assert (E : Select.main_doc hrefs =
    match find SelectSpec.preferred (filter (SelectSpec.candidate false) hrefs) with
    | Some h => Some h
    | None =>
        match find (fun h => String.eqb (SelectSpec.filename h) "r1.htm")
                   (filter (SelectSpec.candidate false) hrefs) with
        | Some h => Some h
        | None => hd_error (filter (SelectSpec.candidate false) hrefs)
        end
    end).
  { unfold Select.main_doc; rewrite fold_step, app_nil_r, rev_involutive.
    destruct (find SelectSpec.preferred _); [reflexivity|].
    apply fallback_map. }
  rewrite E; split.
  - intros h Hh.
    assert (Hin : In h (filter (SelectSpec.candidate false) hrefs)).
    { destruct (find SelectSpec.preferred _) eqn:F1.
      - injection Hh as <-; exact (proj1 (find_some _ _ F1)).
      - destruct (find (fun h => String.eqb _ _) _) eqn:F2.
        + injection Hh as <-; exact (proj1 (find_some _ _ F2)).
        + destruct (filter _ hrefs) as [|x xs]; [discriminate|].
          injection Hh as <-; left; reflexivity. }
    apply filter_In in Hin; exact Hin.
  - split.
    + intros Hn h Hin.
      destruct (SelectSpec.candidate false h) eqn:Hc; [|reflexivity].
      exfalso.
      assert (Hf : In h (filter (SelectSpec.candidate false) hrefs))
        by (apply filter_In; auto).
      destruct (find SelectSpec.preferred _); [discriminate|].
      destruct (find (fun h => String.eqb _ _) _); [discriminate|].
      destruct (filter _ hrefs); [contradiction|discriminate].
    + intros Hall.
      assert (Hnil : filter (SelectSpec.candidate false) hrefs = []).
      { clear E; induction hrefs as [|x xs IH]; [reflexivity|].
        cbn [filter]; rewrite (Hall x (or_introl eq_refl)).
        apply IH; intros h Hin; apply Hall; right; exact Hin. }
      rewrite Hnil; reflexivity.
Qed.


(** ** The cleaned text *)

Lemma no_nl_app (a b : string) :
  TextFacts.no_nl (a ++ b) = TextFacts.no_nl a && TextFacts.no_nl b.
Proof.
  induction a as [|c a IH]; [reflexivity|]; cbn [TextFacts.no_nl append].
  rewrite IH, andb_assoc; reflexivity.
Qed.

Lemma split_no_nl (s p : string) :
  In p (Py.split Py.nl s) -> TextFacts.no_nl p = true.
Proof.
  revert p; induction s as [|c s IH]; intros p Hp; cbn [Py.split] in Hp.
  - destruct Hp as [<-|[]]; reflexivity.
  - destruct (Ascii.eqb c Py.nl) eqn:Hc.
    + destruct Hp as [<-|Hp]; [reflexivity|exact (IH p Hp)].
    + destruct (Py.split Py.nl s) as [|q qs] eqn:Hs.
      * destruct Hp as [<-|[]]; cbn [TextFacts.no_nl]; rewrite Hc; reflexivity.
      * destruct Hp as [<-|Hp].
        -- cbn [TextFacts.no_nl]; rewrite Hc, (IH q (or_introl eq_refl)).
           reflexivity.
        -- exact (IH p (or_intror Hp)).
Qed.

Lemma rstrip_no_nl (l : string) :
  TextFacts.no_nl l = true -> TextFacts.no_nl (Py.rstrip l) = true.
Proof.
  destruct (rstrip_prefix l) as [suf Hsuf]; intros H.
  rewrite Hsuf, no_nl_app in H; apply andb_prop in H; apply H.
Qed.

Lemma clean_loop_lines (b : bool) (ls : list string) :
  (forall p, In p ls -> TextFacts.no_nl p = true) ->
  forall l, In l (Clean.clean_loop b ls) ->
    l <> "" /\ TextFacts.no_nl l = true /\
    (Py.contains "http" l &&
     (Py.contains "fasb.org" l ||
      Py.contains "sec.gov/Archives/edgar/xmlbrl" l)) = false.
Proof.
  revert b; induction ls as [|raw rest IH]; intros b Hls l Hl; [destruct Hl|].
  assert (Hrest : forall p, In p rest -> TextFacts.no_nl p = true)
    by (intros p Hp; apply Hls; right; exact Hp).
  cbn [Clean.clean_loop] in Hl.
  destruct (String.eqb (Py.rstrip raw) "" || (Py.len (Py.strip (Py.rstrip raw)) =? 0))
    eqn:H1; [exact (IH _ Hrest l Hl)|].
  destruct (negb b && negb (Py.contains Clean.marker (Py.rstrip raw)));
    [exact (IH _ Hrest l Hl)|].
  destruct (Py.contains "http" (Py.rstrip raw) &&
            (Py.contains "fasb.org" (Py.rstrip raw) ||
             Py.contains "sec.gov/Archives/edgar/xmlbrl" (Py.rstrip raw))) eqn:H2;
    [exact (IH _ Hrest l Hl)|].
  destruct (_ && existsb _ _); [exact (IH _ Hrest l Hl)|].
  destruct Hl as [<-|Hl]; [|exact (IH _ Hrest l Hl)].
  apply orb_false_elim in H1; destruct H1 as [H1 _].
  split; [apply String.eqb_neq; exact H1|].
  split; [apply rstrip_no_nl, Hls; left; reflexivity|exact H2].
Qed.

Lemma no_nn_line (c : ascii) (r s : string) (b : bool) :
  TextFacts.no_nl (String c r) = true ->
  TextFacts.no_nn b (String c r ++ s) = TextFacts.no_nn false s.
Proof.
  revert c b; induction r as [|d r IH]; intros c b H;
    cbn [TextFacts.no_nl] in H; apply andb_prop in H; destruct H as [Hc Hr];
    apply negb_true_iff in Hc;
    change (String c ?x ++ s) with (String c (x ++ s)); cbn [TextFacts.no_nn];
    rewrite Hc; [reflexivity|].
  apply IH; exact Hr.
Qed.

Lemma join_no_nn (ls : list string) (b : bool) :
  (forall l, In l ls -> l <> "" /\ TextFacts.no_nl l = true) ->
  TextFacts.no_nn b (Py.join (String Py.nl "") ls) = true.
Proof.
  revert b; induction ls as [|x rest IH]; intros b H; [reflexivity|].
  destruct (H x (or_introl eq_refl)) as [Hne Hx].
  destruct x as [|c r]; [contradiction|].
  assert (IH' := IH true (fun l Hl => H l (or_intror Hl))).
  destruct rest as [|y ys].
  - cbn [Py.join]; rewrite <- (str_app_nil_r (String c r)).
    rewrite no_nn_line by exact Hx; reflexivity.
  - change (Py.join (String Py.nl "") (String c r :: y :: ys)) with
      (String c r ++ String Py.nl "" ++ Py.join (String Py.nl "") (y :: ys)).
    rewrite no_nn_line by exact Hx; cbn [append TextFacts.no_nn].
    rewrite Ascii.eqb_refl; exact IH'.
Qed.

Lemma no_nn_nnn (x y : string) (b : bool) :
  TextFacts.no_nn b (x ++ String Py.nl (String Py.nl y)) = false.
Proof.
  revert b; induction x as [|c x IH]; intros b.
  - cbn [append TextFacts.no_nn]; rewrite Ascii.eqb_refl, andb_false_r.
    destruct b; reflexivity.
  - cbn [append TextFacts.no_nn].
    destruct (Ascii.eqb c Py.nl); [rewrite IH, andb_false_r; reflexivity|apply IH].
Qed.

Lemma collapse_noop (s : string) :
  TextFacts.no_nn false s = true -> Clean.collapse s = s.
Proof.
  intros H; unfold Clean.collapse; destruct (String.length s); [reflexivity|].
  cbn [Clean.collapse_fuel].
  destruct (Py.contains _ s) eqn:Hc; [|reflexivity].
  apply contains_iff in Hc; destruct Hc as [x [y ->]].
  change (String Py.nl (String Py.nl (String Py.nl "")) ++ y) with
    (String Py.nl (String Py.nl (String Py.nl y))) in H.
  rewrite no_nn_nnn in H; discriminate.
Qed.

(** The lines [_fetch_filing_from_edgar] keeps are non-empty, hold no
    newline and are never XBRL reference lines (an [http] link to
    [fasb.org] or to the XBRL archive); joined with newlines they hold no
    blank line, so the text never contains three consecutive newlines and
    the collapsing [while] loop of lines 199-200 never changes it. *)
Theorem cleaned_text_lines (text : string) :
  let kept := Clean.clean_loop false (Py.split Py.nl text) in
  Clean.cleaned_of text = Py.join (String Py.nl "") kept /\
  TextFacts.no_nn false (Clean.cleaned_of text) = true /\
  (forall l, In l kept ->
     l <> "" /\ TextFacts.no_nl l = true /\
     (Py.contains "http" l &&
      (Py.contains "fasb.org" l ||
       Py.contains "sec.gov/Archives/edgar/xmlbrl" l)) = false).
Proof.
  intros kept.
  assert (Hl := clean_loop_lines false (Py.split Py.nl text)
                  (split_no_nl text)).
  assert (Hj : TextFacts.no_nn false (Py.join (String Py.nl "") kept) = true)
    by (apply join_no_nn; intros l Hin; destruct (Hl l Hin) as [A [B _]]; auto).
  assert (Hc : Clean.cleaned_of text = Py.join (String Py.nl "") kept)
    by (unfold Clean.cleaned_of; apply collapse_noop; exact Hj).
  split; [exact Hc|split; [rewrite Hc; exact Hj|exact Hl]].
Qed.

(** ** The module entry point *)



(** ** CIK padding and the archive directory *)

Lemma digits_rev_lead (fuel : nat) (n : Z) (acc : string) :
  0 < n < 10 ^ Z.of_nat fuel ->
  exists c r, Py.digits_rev fuel n acc = String c r /\ c <> "0"%char.
Proof.
  revert n acc; induction fuel as [|f IH]; intros n acc Hn;
    [cbn in Hn; lia|].
  cbn [Py.digits_rev].
  destruct (n / 10 =? 0) eqn:Hq.
  - apply Z.eqb_eq in Hq.
    assert (Hlt : n < 10) by (apply Z.div_small_iff in Hq; lia).
    rewrite Z.mod_small by lia.
    eexists _, _; split; [reflexivity|].
    assert (Hc : n = 1 \/ n = 2 \/ n = 3 \/ n = 4 \/ n = 5 \/ n = 6 \/ n = 7 \/
                 n = 8 \/ n = 9) by lia.
    repeat destruct Hc as [-> | Hc]; subst; discriminate.
  - apply Z.eqb_neq in Hq; apply IH.
    assert (0 <= n / 10) by (apply Z.div_pos; lia).
    split; [lia|].
    apply Z.div_lt_upper_bound; [lia|].
    rewrite Nat2Z.inj_succ, Z.pow_succ_r in Hn by lia; lia.
Qed.

Lemma str_of_int_lead (n : Z) :
  0 < n -> exists c r, Py.str_of_int n = String c r /\ c <> "0"%char.
Proof.
  intros Hn; unfold Py.str_of_int.
  replace (n <? 0) with false by (symmetry; apply Z.ltb_ge; lia).
  rewrite Z.abs_eq by lia.
  apply digits_rev_lead; split; [exact Hn|].
  assert (Hl := Z.log2_nonneg n).
  rewrite Nat2Z.inj_succ, Z2Nat.id by exact Hl.
  apply Z.lt_le_trans with (2 ^ Z.succ (Z.log2 n)); [apply Z.log2_spec; exact Hn|].
  apply Z.pow_le_mono_l; lia.
Qed.

Lemma lstrip_zeros_zfill (w : nat) (s : string) :
  Py.lstrip_zeros (Py.zfill w s) = Py.lstrip_zeros s.
Proof.
  unfold Py.zfill; induction (w - String.length s)%nat as [|k IH];
    [reflexivity|exact IH].
Qed.

(** A CIK as [_load_cik_lookup] and [_get_cik] store it, [str(n).zfill(10)]
    for a non-negative [n], is turned back into [str(n)] by the
    [cik.lstrip('0') or '0'] of [_fetch_filing_from_edgar]: the directory
    URL names the company by its unpadded number, [0] included. *)
Theorem dir_url_padded_cik (n : Z) (acc : string) :
  0 <= n ->
  Downloader.dir_url (Py.zfill 10 (Py.str_of_int n)) acc =
  ("https://www.sec.gov/Archives/edgar/data/" ++ Py.str_of_int n ++ "/"
   ++ Py.remove_char "-"%char acc ++ "/").
Proof.
  intros Hn; unfold Downloader.dir_url; rewrite lstrip_zeros_zfill.
  destruct (Z.eq_dec n 0) as [->|Hne]; [reflexivity|].
  destruct (str_of_int_lead n ltac:(lia)) as [c [r [E Hc]]]; rewrite E.
  cbn [Py.lstrip_zeros].
  destruct c as [[] [] [] [] [] [] [] []]; try reflexivity.
  exfalso; apply Hc; reflexivity.
Qed.

Lemma dir_url_padded_cik_witness :
  0 <= 320193 /\
  Downloader.dir_url "0000320193" "0000320193-22-000108" =
  "https://www.sec.gov/Archives/edgar/data/320193/000032019322000108/".
Proof.
  split; [lia|].
  change "0000320193" with (Py.zfill 10 (Py.str_of_int 320193)).
  rewrite (dir_url_padded_cik 320193 "0000320193-22-000108" ltac:(lia)).
  reflexivity.
Defined.

(** ** Saving annual filings *)




